(** * Egress proxy addon: request rewriting, passthrough and observation

    A shallow embedding of
    [apps/os/sandbox/s6-daemons/egress-proxy/addon.py], the mitmproxy addon
    that redirects every intercepted HTTP(S) request to the worker endpoint
    and lets WebSocket upgrades through.

    The addon is 120 lines of Python on top of two libraries: the standard
    library's [urllib.parse.urlparse] and mitmproxy's request and header
    objects.  The handlers are embedded statement by statement in a small
    state-and-exception monad over the flow and the log sink; the two
    libraries are modelled next to them, as far as the handlers use them.

    Text is modelled by [string]: sequences of 8-bit characters, read as the
    code points U+0000..U+00FF.  Integers are [Z]. *)

From Stdlib Require Import String Ascii ZArith List Bool Lia.
From Stdlib Require Import DecimalString DecimalPos.
Import ListNotations.

Local Open Scope string_scope.
Local Open Scope Z_scope.

(* ================================================================== *)
(** * Python strings *)
(* ================================================================== *)

Module Py.

(** Truth value of a string: [if s] holds for the non-empty ones. *)
Definition truthy (s : string) : bool :=
  match s with
  | EmptyString => false
  | String _ _ => true
  end.

(** [c in s] for a one-character [c]. *)
Fixpoint contains (c : ascii) (s : string) : bool :=
  match s with
  | EmptyString => false
  | String x t => Ascii.eqb x c || contains c t
  end.

(** [all(p(c) for c in s)]. *)
Fixpoint all (p : ascii -> bool) (s : string) : bool :=
  match s with
  | EmptyString => true
  | String x t => p x && all p t
  end.

Definition in_range (lo hi : N) (c : ascii) : bool :=
  let n := N_of_ascii c in (N.leb lo n && N.leb n hi)%bool.

Definition shift_char (k : N) (c : ascii) : ascii :=
  ascii_of_N (N_of_ascii c + k).

(** [bytes.lower()] on one byte: only A..Z move. *)
Definition ascii_lower_char (c : ascii) : ascii :=
  if in_range 65 90 c then shift_char 32 c else c.

(** [str.lower()] on one code point below U+0100: A..Z and the Latin-1
    capitals U+00C0..U+00DE (the multiplication sign U+00D7 apart). *)
Definition lower_char (c : ascii) : ascii :=
  if in_range 65 90 c then shift_char 32 c
  else if (in_range 192 222 c && negb (N.eqb (N_of_ascii c) 215))%bool
       then shift_char 32 c
       else c.

Fixpoint map (f : ascii -> ascii) (s : string) : string :=
  match s with
  | EmptyString => EmptyString
  | String x t => String (f x) (map f t)
  end.

(** [s.lower()] for a [str]. *)
Definition lower (s : string) : string := map lower_char s.

(** [b.lower()] for a [bytes]. *)
Definition bytes_lower (s : string) : string := map ascii_lower_char s.

(** [s.rstrip(c)] for a one-character [c]. *)
Fixpoint rstrip (c : ascii) (s : string) : string :=
  match s with
  | EmptyString => EmptyString
  | String x t =>
      match rstrip c t with
      | EmptyString => if Ascii.eqb x c then EmptyString else String x EmptyString
      | t' => String x t'
      end
  end.

(** [s.lstrip(chars)], the set [chars] given by its membership test. *)
Fixpoint lstrip (p : ascii -> bool) (s : string) : string :=
  match s with
  | EmptyString => EmptyString
  | String x t => if p x then lstrip p t else s
  end.

(** [str.isspace()] on one code point below U+0100. *)
Definition isspace (c : ascii) : bool :=
  let n := N_of_ascii c in
  in_range 9 13 c || in_range 28 32 c || N.eqb n 133 || N.eqb n 160.

(** [s.strip()]: white space removed at both ends. *)
Fixpoint rstrip_space (s : string) : string :=
  match s with
  | EmptyString => EmptyString
  | String x t =>
      match rstrip_space t with
      | EmptyString => if isspace x then EmptyString else String x EmptyString
      | t' => String x t'
      end
  end.

Definition strip (s : string) : string := rstrip_space (lstrip isspace s).

(** Deleting every character of a set: the loop
    [for b in chars: s = s.replace(b, "")]. *)
Fixpoint remove (p : ascii -> bool) (s : string) : string :=
  match s with
  | EmptyString => EmptyString
  | String x t => if p x then remove p t else String x (remove p t)
  end.

(** The cut at the first character of a set: [(s[:i], s[i:])] for the
    least [i] with [p s[i]], and [(s, "")] when there is none. *)
Fixpoint break (p : ascii -> bool) (s : string) : string * string :=
  match s with
  | EmptyString => (EmptyString, EmptyString)
  | String x t =>
      if p x then (EmptyString, s)
      else let (a, b) := break p t in (String x a, b)
  end.

(** [s.partition(c)]: [(head, c, tail)] around the first [c], and
    [(s, "", "")] when [c] does not occur. *)
Definition partition (c : ascii) (s : string) : string * string * string :=
  match break (Ascii.eqb c) s with
  | (a, String x b) => (a, String x EmptyString, b)
  | (a, EmptyString) => (a, EmptyString, EmptyString)
  end.

(** The cut at the last [c]: [Some (s[:j], s[j:])] for [j = s.rfind(c)],
    [None] when [c] does not occur. *)
Fixpoint rbreak (c : ascii) (s : string) : option (string * string) :=
  match s with
  | EmptyString => None
  | String x t =>
      match rbreak c t with
      | Some (a, b) => Some (String x a, b)
      | None => if Ascii.eqb x c then Some (EmptyString, s) else None
      end
  end.

(** [s.rpartition(c)]: [(head, c, tail)] around the last [c], and
    [("", "", s)] when [c] does not occur. *)
Definition rpartition (c : ascii) (s : string) : string * string * string :=
  match rbreak c s with
  | Some (a, String x b) => (a, String x EmptyString, b)
  | _ => (EmptyString, EmptyString, s)
  end.

(** [s.startswith(p)]. *)
Fixpoint startswith (p s : string) : bool :=
  match p, s with
  | EmptyString, _ => true
  | String a p', String b s' => Ascii.eqb a b && startswith p' s'
  | String _ _, EmptyString => false
  end.

(** [s.endswith(p)]. *)
Fixpoint endswith (p s : string) : bool :=
  String.eqb p s ||
  match s with
  | EmptyString => false
  | String _ t => endswith p t
  end.

(** [sep.join(l)]. *)
Definition join (sep : string) (l : list string) : string :=
  String.concat sep l.

(** [str(n)] and the [{n}] of an f-string, for an [int]. *)
Definition str_of_int (n : Z) : string :=
  NilZero.string_of_int (Z.to_int n).

(** [int(s)] guarded by [s.isdigit() and s.isascii()]: the value of a
    non-empty string of ASCII digits, [None] for any other string. *)
Definition int_of_digits (s : string) : option Z :=
  option_map Z.of_uint (NilZero.uint_of_string s).

(** [len(s)]. *)
Definition len (s : string) : Z := Z.of_nat (String.length s).

(** [l[-1]]: the last element, [None] where Python raises [IndexError]. *)
Fixpoint last {A : Type} (l : list A) : option A :=
  match l with
  | [] => None
  | [x] => Some x
  | _ :: t => last t
  end.

End Py.

(* ================================================================== *)
(** * Exceptions *)
(* ================================================================== *)

(** The exceptions the handlers and [urlparse] can raise.  [NoneStored]
    is not a Python exception: it marks a run that stores [None] where the
    host engine's request holds a [str] (the worker URL has no host part);
    what the engine does with such a flow lies outside this model. *)
Inductive exn : Type :=
| ValueError
| AssertionError
| IndexError
| AttributeError
| NoneStored.

Inductive result (A : Type) : Type :=
| Ok (a : A)
| Raise (e : exn).

Arguments Ok {A} a.
Arguments Raise {A} e.

Definition result_bind {A B : Type} (r : result A) (k : A -> result B) : result B :=
  match r with
  | Ok a => k a
  | Raise e => Raise e
  end.

(* ================================================================== *)
(** * [urllib.parse] *)
(* ================================================================== *)

(** [urlparse] as CPython 3.11 and 3.12 have it, for [str] arguments and
    the default [scheme=''] and [allow_fragments=True].  Two parts are not
    spelled out.  The validation of a network location that has both
    brackets is done with the [ipaddress] module and differs between
    releases: it is taken as a parameter.  The NFKC screen of
    [_checknetloc] cannot fire on code points below U+0100 and is left
    out. *)

Class BracketedNetloc : Type :=
  check_bracketed_netloc : string -> bool.

Module Urllib.

Definition is_char (c x : ascii) : bool := Ascii.eqb c x.

Definition isalpha (c : ascii) : bool :=
  Py.in_range 65 90 c || Py.in_range 97 122 c.

Definition isdigit (c : ascii) : bool := Py.in_range 48 57 c.

(** [scheme_chars]: letters, digits and [+-.]. *)
Definition scheme_chars (c : ascii) : bool :=
  isalpha c || isdigit c || is_char "+" c || is_char "-" c || is_char "." c.

(** [_WHATWG_C0_CONTROL_OR_SPACE]: U+0000..U+0020. *)
Definition WHATWG_C0_CONTROL_OR_SPACE (c : ascii) : bool :=
  N.leb (N_of_ascii c) 32.

(** [_UNSAFE_URL_BYTES_TO_REMOVE]: tab, carriage return, line feed. *)
Definition UNSAFE_URL_BYTES_TO_REMOVE (c : ascii) : bool :=
  let n := N_of_ascii c in N.eqb n 9 || N.eqb n 13 || N.eqb n 10.

(** [uses_params], the schemes whose last path segment may carry
    parameters. *)
Definition uses_params : list string :=
  [ ""; "ftp"; "hdl"; "prospero"; "http"; "imap"; "https"; "shttp"; "rtsp";
    "rtspu"; "sip"; "sips"; "mms"; "sftp"; "tel" ].

(** The delimiters that end the network location. *)
Definition netloc_delim (c : ascii) : bool :=
  is_char "/" c || is_char "?" c || is_char "#" c.

(** [_splitnetloc(url, 2)], for a [url] that starts with two slashes. *)
Definition _splitnetloc (url : string) : string * string :=
  match url with
  | String _ (String _ rest) => Py.break netloc_delim rest
  | _ => (EmptyString, EmptyString)
  end.

(** The scheme test of [urlsplit]: with [i = url.find(':')], a scheme is
    split off when [i > 0], [url[0]] is an ASCII letter and [url[:i]]
    has scheme characters only. *)
Definition split_scheme (url : string) : string * string :=
  match Py.partition ":" url with
  | (String c0 _ as pre, String _ _, rest) =>
      if isalpha c0 && Py.all scheme_chars pre
      then (Py.lower pre, rest)
      else (EmptyString, url)
  | _ => (EmptyString, url)
  end.

(** The bracket checks of [urlsplit] on a network location: a bracket
    without its partner is an error, a pair of them is for the parameter
    to judge. *)
Definition check_brackets `{BracketedNetloc} (netloc : string) : result unit :=
  let open := Py.contains "[" netloc in
  let close := Py.contains "]" netloc in
  if (open && negb close) || (close && negb open) then Raise ValueError
  else if open && close then
    if check_bracketed_netloc netloc then Ok tt else Raise ValueError
  else Ok tt.

Record SplitResult : Type := mkSplit {
  s_scheme : string;
  s_netloc : string;
  s_path : string;
  s_query : string;
  s_fragment : string
}.

(** The text of [urlsplit]'s argument once the leading controls and
    the unsafe bytes are gone. *)
Definition sanitize (url : string) : string :=
  Py.remove UNSAFE_URL_BYTES_TO_REMOVE (Py.lstrip WHATWG_C0_CONTROL_OR_SPACE url).

(** [url.split(c, 1)] guarded by [c in url]: the text before the first
    [c] and the text after it, [(url, "")] when [c] does not occur. *)
Definition split_once (c : ascii) (url : string) : string * string :=
  let '(a, _, b) := Py.partition c url in (a, b).

Definition urlsplit `{BracketedNetloc} (url : string) : result SplitResult :=
  let url := sanitize url in
  let (scheme, url) := split_scheme url in
  let (netloc, url) :=
    if Py.startswith "//" url then _splitnetloc url else (EmptyString, url) in
  result_bind (check_brackets netloc) (fun _ =>
  let (url, fragment) := split_once "#" url in
  let (url, query) := split_once "?" url in
  Ok (mkSplit scheme netloc url query fragment)).

(** [_splitparams(url)], which [urlparse] calls on a [url] that has a
    semicolon: the parameters are what follows the first semicolon of the
    last path segment. *)
Definition _splitparams (url : string) : string * string :=
  match Py.rbreak "/" url with
  | Some (head, last) =>
      match Py.partition ";" last with
      | (_, EmptyString, _) => (url, EmptyString)
      | (a, _, b) => (head ++ a, b)
      end
  | None => split_once ";" url
  end.

Record ParseResult : Type := mkParse {
  scheme : string;
  netloc : string;
  path : string;
  params : string;
  query : string;
  fragment : string
}.

Definition urlparse `{BracketedNetloc} (url : string) : result ParseResult :=
  result_bind (urlsplit url) (fun r =>
  let (url, params) :=
    if existsb (String.eqb (s_scheme r)) uses_params && Py.contains ";" (s_path r)
    then _splitparams (s_path r)
    else (s_path r, EmptyString) in
  Ok (mkParse (s_scheme r) (s_netloc r) url params (s_query r) (s_fragment r))).

(** [_hostinfo]: the raw host name and the port text, [None] for an
    empty port. *)
Definition _hostinfo (netloc : string) : string * option string :=
  let hostinfo := snd (Py.rpartition "@" netloc) in
  let '(_, have_open_br, bracketed) := Py.partition "[" hostinfo in
  let (hostname, port) :=
    if Py.truthy have_open_br then
      let '(hostname, _, port) := Py.partition "]" bracketed in
      (hostname, snd (Py.partition ":" port))
    else
      let '(hostname, _, port) := Py.partition ":" hostinfo in
      (hostname, port) in
  (hostname, if Py.truthy port then Some port else None).

(** The [hostname] property: [None] for an empty host, else the host in
    lower case, a zone after [%] kept as it is. *)
Definition hostname (r : ParseResult) : option string :=
  let hostname := fst (_hostinfo (netloc r)) in
  if Py.truthy hostname then
    let '(hostname, percent, zone) := Py.partition "%" hostname in
    Some (Py.lower hostname ++ percent ++ zone)
  else None.

(** The [port] property: [None] when no port is given, [ValueError] for
    a port that is not a number of ASCII digits or lies outside
    0..65535. *)
Definition port (r : ParseResult) : result (option Z) :=
  match snd (_hostinfo (netloc r)) with
  | None => Ok None
  | Some port =>
      match Py.int_of_digits port with
      | Some n => if (0 <=? n) && (n <=? 65535) then Ok (Some n) else Raise ValueError
      | None => Raise ValueError
      end
  end.

End Urllib.

(* ================================================================== *)
(** * The host engine's objects: [mitmproxy.http] and [mitmproxy.ctx] *)
(* ================================================================== *)

(** What the handlers touch of a flow.  A header mapping is mitmproxy's
    multidict: an ordered sequence of fields, names compared by their
    lower-case bytes, [h[k] = v] keeping the first field named [k] in
    place (with the name as it was) and dropping the others.  The
    assignments to [host], [port], [scheme] and [path] are plain stores in
    this model; the engine's setters also refresh an existing [Host] field,
    which the request handler overwrites in its last statement anyway. *)

Module http.

Module Headers.

Definition t : Type := list (string * string).

(** [_kconv]: the key under which a field name is compared. *)
Definition _kconv (key : string) : string := Py.bytes_lower key.

Definition same_key (k1 k2 : string) : bool :=
  String.eqb (_kconv k1) (_kconv k2).

(** [get_all(key)]: the values of the fields named [key], in order. *)
Fixpoint get_all (key : string) (fields : t) : list string :=
  match fields with
  | [] => []
  | (k, v) :: rest =>
      if same_key k key then v :: get_all key rest else get_all key rest
  end.

(** [set_all(key, values)]. *)
Fixpoint set_all (key : string) (values : list string) (fields : t) : t :=
  match fields with
  | [] => List.map (fun v => (key, v)) values
  | (k, v) :: rest =>
      if same_key k key then
        match values with
        | [] => set_all key [] rest
        | x :: xs => (k, x) :: set_all key xs rest
        end
      else (k, v) :: set_all key values rest
  end.

(** [headers.get(key, default)]: the values joined by [", "]. *)
Definition get (key default : string) (fields : t) : string :=
  match get_all key fields with
  | [] => default
  | values => Py.join ", " values
  end.

(** [headers[key] = value]. *)
Definition set (key value : string) (fields : t) : t :=
  set_all key [value] fields.

End Headers.

Record Request : Type := mkRequest {
  method : string;
  scheme : string;
  host : string;
  port : Z;
  path : string;
  headers : Headers.t
}.

Record Response : Type := mkResponse {
  status_code : Z
}.

Record WebSocketMessage : Type := mkMessage {
  from_client : bool;
  content : string
}.

Record WebSocketData : Type := mkWebSocket {
  messages : list WebSocketMessage
}.

Record HTTPFlow : Type := mkFlow {
  request : Request;
  response : option Response;
  websocket : option WebSocketData;
  error : option string
}.

Definition with_headers (f : Headers.t -> Headers.t) (r : Request) : Request :=
  mkRequest (method r) (scheme r) (host r) (port r) (path r) (f (headers r)).

Definition with_host (v : string) (r : Request) : Request :=
  mkRequest (method r) (scheme r) v (port r) (path r) (headers r).

Definition with_port (v : Z) (r : Request) : Request :=
  mkRequest (method r) (scheme r) (host r) v (path r) (headers r).

Definition with_scheme (v : string) (r : Request) : Request :=
  mkRequest (method r) v (host r) (port r) (path r) (headers r).

Definition with_path (v : string) (r : Request) : Request :=
  mkRequest (method r) (scheme r) (host r) (port r) v (headers r).

Definition with_request (f : Request -> Request) (fl : HTTPFlow) : HTTPFlow :=
  mkFlow (f (request fl)) (response fl) (websocket fl) (error fl).

(** [url.default_port]. *)
Definition default_port (scheme : string) : option Z :=
  if String.eqb scheme "http" then Some 80
  else if String.eqb scheme "https" then Some 443
  else None.

(** [request.url] for a request in origin form:
    [f"{scheme}://{hostport}{path}"], the port left out when it is the
    scheme's default and the path [*] of an [OPTIONS *] request left out
    too. *)
Definition url (r : Request) : string :=
  let authority :=
    match default_port (scheme r) with
    | Some p => if p =? port r then host r
                else host r ++ ":" ++ Py.str_of_int (port r)
    | None => host r ++ ":" ++ Py.str_of_int (port r)
    end in
  scheme r ++ "://" ++ authority
  ++ (if String.eqb (path r) "*" then EmptyString else path r).

End http.

(** The log sink [ctx.log]: one record per call, appended in order. *)
Inductive level : Type := Warn | Info | Debug | Error.

Definition LogRecord : Type := (level * string)%type.

(** What a handler runs on: the flow it is given and the log so far. *)
Record State : Type := mkState {
  flow : http.HTTPFlow;
  log : list LogRecord
}.

(** Handlers are computations that read and update the state and end
    normally or by an exception; the state reached when an exception
    leaves the handler is kept. *)
Definition M (A : Type) : Type := State -> result A * State.

Definition ret {A : Type} (a : A) : M A := fun s => (Ok a, s).

Definition bind {A B : Type} (m : M A) (k : A -> M B) : M B :=
  fun s =>
    match m s with
    | (Ok a, s') => k a s'
    | (Raise e, s') => (Raise e, s')
    end.

Definition raise {A : Type} (e : exn) : M A := fun s => (Raise e, s).

Definition lift {A : Type} (r : result A) : M A := fun s => (r, s).

Notation "x <- m ;; k" := (bind m (fun x => k))
  (at level 61, m at next level, right associativity).
Notation "m ;;; k" := (bind m (fun _ => k))
  (at level 61, right associativity).

(** [flow.request.f], read. *)
Definition read {A : Type} (f : http.Request -> A) : M A :=
  fun s => (Ok (f (http.request (flow s))), s).

(** [flow.f], read. *)
Definition read_flow {A : Type} (f : http.HTTPFlow -> A) : M A :=
  fun s => (Ok (f (flow s)), s).

(** An update of [flow.request] in place. *)
Definition update (f : http.Request -> http.Request) : M unit :=
  fun s => (Ok tt, mkState (http.with_request f (flow s)) (log s)).

(** [flow.request.headers[key] = value]. *)
Definition set_header (key value : string) : M unit :=
  update (http.with_headers (http.Headers.set key value)).

(** [ctx.log.<level>(msg)]. *)
Definition emit (l : level) (msg : string) : M unit :=
  fun s => (Ok tt, mkState (flow s) (log s ++ [(l, msg)])).

(** A value that must be a [str] to be stored. *)
Definition some_str (o : option string) : M string :=
  match o with
  | Some v => ret v
  | None => raise NoneStored
  end.

(** A value whose attribute is read: [None] has none. *)
Definition attr_of {A : Type} (o : option A) : M A :=
  match o with
  | Some v => ret v
  | None => raise AttributeError
  end.

(* ================================================================== *)
(** * The addon *)
(* ================================================================== *)

(** The two environment variables, read once when the module is loaded. *)
Record Config : Type := mkConfig {
  BASE_URL : string;
  API_KEY : string
}.

(** [WORKER_ENDPOINT]: the base URL without its trailing slashes, followed
    by the fixed path; empty when no base URL is set. *)
Definition WORKER_ENDPOINT (cfg : Config) : string :=
  if Py.truthy (BASE_URL cfg)
  then Py.rstrip "/" (BASE_URL cfg) ++ "/api/egress-proxy"
  else EmptyString.

Module EgressProxyAddon.

Section Handlers.

Context `{BracketedNetloc}.
Variable cfg : Config.

Definition __init__ : M unit :=
  (if negb (Py.truthy (BASE_URL cfg))
   then emit Warn "[egress] ITERATE_OS_BASE_URL not set - requests will pass through directly"
   else ret tt) ;;;
  (if negb (Py.truthy (API_KEY cfg))
   then emit Warn "[egress] ITERATE_OS_API_KEY not set - worker auth will fail"
   else ret tt).

(** The original URL of a request, as the request handler builds it
    from the four fields it saved. *)
Definition original_url
    (original_scheme original_host : string) (original_port : Z)
    (original_path : string) : string :=
  if (String.eqb original_scheme "https" && (original_port =? 443))
     || (String.eqb original_scheme "http" && (original_port =? 80))
  then original_scheme ++ "://" ++ original_host ++ original_path
  else original_scheme ++ "://" ++ original_host ++ ":"
       ++ Py.str_of_int original_port ++ original_path.

(** [parsed.port or (443 if parsed.scheme == "https" else 80)]. *)
Definition port_or_default (port : option Z) (scheme : string) : Z :=
  match port with
  | Some p => if p =? 0 then (if String.eqb scheme "https" then 443 else 80) else p
  | None => if String.eqb scheme "https" then 443 else 80
  end.

(** [parsed.path or "/api/egress-proxy"]. *)
Definition path_or_default (path : string) : string :=
  if Py.truthy path then path else "/api/egress-proxy".

(** [parsed.port and parsed.port not in (80, 443)]. *)
Definition port_is_shown (port : option Z) : bool :=
  match port with
  | Some p => negb (p =? 0) && negb ((p =? 80) || (p =? 443))
  | None => false
  end.

Definition request : M unit :=
  upgrade <- read (fun r => http.Headers.get "Upgrade" "" (http.headers r)) ;;
  if String.eqb (Py.lower upgrade) "websocket" then
    h <- read http.host ;;
    emit Info ("[egress] WebSocket passthrough: " ++ h)
  else
    original_host <- read http.host ;;
    original_port <- read http.port ;;
    original_scheme <- read http.scheme ;;
    original_path <- read http.path ;;
    let original_url :=
      original_url original_scheme original_host original_port original_path in
    m <- read http.method ;;
    emit Info ("[egress] " ++ m ++ " " ++ original_url) ;;;
    if negb (Py.truthy (WORKER_ENDPOINT cfg)) then ret tt
    else
      parsed <- lift (Urllib.urlparse (WORKER_ENDPOINT cfg)) ;;
      set_header "X-Iterate-Original-URL" original_url ;;;
      set_header "X-Iterate-Original-Host" original_host ;;;
      m <- read http.method ;;
      set_header "X-Iterate-Original-Method" m ;;;
      (if Py.truthy (API_KEY cfg)
       then set_header "X-Iterate-API-Key" (API_KEY cfg)
       else ret tt) ;;;
      hostname <- some_str (Urllib.hostname parsed) ;;
      update (http.with_host hostname) ;;;
      port <- lift (Urllib.port parsed) ;;
      update (http.with_port (port_or_default port (Urllib.scheme parsed))) ;;;
      update (http.with_scheme (Urllib.scheme parsed)) ;;;
      update (http.with_path (path_or_default (Urllib.path parsed))) ;;;
      port <- lift (Urllib.port parsed) ;;
      if port_is_shown port then
        hostname <- some_str (Urllib.hostname parsed) ;;
        port <- lift (Urllib.port parsed) ;;
        set_header "Host"
          (hostname ++ ":" ++ match port with
                              | Some p => Py.str_of_int p
                              | None => "None"
                              end)
      else
        hostname <- some_str (Urllib.hostname parsed) ;;
        set_header "Host" hostname.

Definition response : M unit :=
  original_url <-
    read (fun r => http.Headers.get "X-Iterate-Original-URL" (http.url r)
                     (http.headers r)) ;;
  resp <- read_flow http.response ;;
  resp <- attr_of resp ;;
  emit Info ("[egress] Response " ++ Py.str_of_int (http.status_code resp)
             ++ " for " ++ original_url).

Definition websocket_start : M unit :=
  h <- read http.host ;;
  emit Info ("[egress] WebSocket connection to " ++ h).

Definition websocket_message : M unit :=
  ws <- read_flow http.websocket ;;
  match ws with
  | None => raise AssertionError
  | Some ws =>
      match Py.last (http.messages ws) with
      | None => raise IndexError
      | Some message =>
          let direction :=
            if http.from_client message then "client->server"
            else "server->client" in
          emit Debug ("[egress] WebSocket " ++ direction ++ ": "
                      ++ Py.str_of_int (Py.len (http.content message))
                      ++ " bytes")
      end
  end.

Definition error : M unit :=
  u <- read http.url ;;
  e <- read_flow http.error ;;
  emit Error ("[egress] Error for " ++ u ++ ": "
              ++ match e with Some msg => msg | None => "None" end).

End Handlers.

End EgressProxyAddon.

(* ================================================================== *)
(** * Notions the properties are stated with *)
(* ================================================================== *)

(** The test of the request handler's first statement. *)
Definition is_websocket_upgrade (r : http.Request) : bool :=
  String.eqb (Py.lower (http.Headers.get "Upgrade" "" (http.headers r))) "websocket".

(** The classification rule as the specification words it: the [Upgrade]
    value equals [websocket] without regard to case, after trimming. *)
Definition spec_is_websocket_upgrade (r : http.Request) : bool :=
  String.eqb
    (Py.lower (Py.strip (http.Headers.get "Upgrade" "" (http.headers r))))
    "websocket".

(** The relay endpoint: what the request handler takes from
    [urlparse(WORKER_ENDPOINT)] for the four destination fields.  [None]
    when no base URL is set. *)
Record RelayEndpoint : Type := mkRelay {
  relay_scheme : string;
  relay_hostname : string;
  relay_port : Z;
  relay_path : string
}.

Definition relay_endpoint `{BracketedNetloc} (cfg : Config)
  : result (option RelayEndpoint) :=
  if Py.truthy (WORKER_ENDPOINT cfg) then
    result_bind (Urllib.urlparse (WORKER_ENDPOINT cfg)) (fun parsed =>
    match Urllib.hostname parsed with
    | None => Raise NoneStored
    | Some hostname =>
        result_bind (Urllib.port parsed) (fun port =>
        Ok (Some (mkRelay (Urllib.scheme parsed) hostname
                    (EgressProxyAddon.port_or_default port (Urllib.scheme parsed))
                    (EgressProxyAddon.path_or_default (Urllib.path parsed)))))
    end)
  else Ok None.

(** The request of a state. *)
Definition req (s : State) : http.Request := http.request (flow s).

(** The passthrough outcome: the flow as it was, one more log record. *)
Definition logged (l : level) (msg : string) (s : State) : State :=
  mkState (flow s) (log s ++ [(l, msg)]).

(** A handler ends normally on a state. *)
Definition returns (m : M unit) (s : State) : Prop :=
  exists s', m s = (Ok tt, s').


Definition has_message (s : State) : Prop :=
  exists ws, http.websocket (flow s) = Some ws /\ http.messages ws <> [].


(** The scheme's default port, for the two schemes of a request. *)
Definition scheme_default (scheme : string) (port : Z) : bool :=
  (String.eqb scheme "https" && (port =? 443))
  || (String.eqb scheme "http" && (port =? 80)).

(** Parsing a URL recovers the four parts it was built from: the scheme,
    the host, the path, and the port, taken from the URL when it is
    written there and from the scheme when it is left out, the way the
    request handler reads the worker endpoint. *)
Definition recovers `{BracketedNetloc}
    (url scheme host : string) (port : Z) (path : string) : Prop :=
  exists parsed written,
    Urllib.urlparse url = Ok parsed
    /\ Urllib.scheme parsed = scheme
    /\ Urllib.hostname parsed = Some host
    /\ Urllib.port parsed = Ok written
    /\ EgressProxyAddon.port_or_default written scheme = port
    /\ Urllib.path parsed = path.

(** The instance used where a concrete URL is parsed: no URL below has a
    bracket, so the choice is immaterial there. *)
Definition no_bracketed_host : BracketedNetloc := fun _ => false.

(** The header mapping the request handler leaves on a rewritten request,
    in closed form: the three stamps, the credential when one is set, and
    the [Host] field last. *)
Definition rewritten_headers (cfg : Config) (host_field : string)
    (r : http.Request) : http.Headers.t :=
  let stamped :=
    http.Headers.set "X-Iterate-Original-Method" (http.method r)
      (http.Headers.set "X-Iterate-Original-Host" (http.host r)
         (http.Headers.set "X-Iterate-Original-URL"
            (EgressProxyAddon.original_url (http.scheme r) (http.host r)
               (http.port r) (http.path r))
            (http.headers r))) in
  http.Headers.set "Host" host_field
    (if Py.truthy (API_KEY cfg)
     then http.Headers.set "X-Iterate-API-Key" (API_KEY cfg) stamped
     else stamped).

(** The value the handler's last statement gives the [Host] field. *)
Definition host_value (hostname : string) (port : option Z) : string :=
  if EgressProxyAddon.port_is_shown port
  then hostname ++ ":" ++ match port with
                          | Some p => Py.str_of_int p
                          | None => "None"
                          end
  else hostname.

(** The record of the [request-seen] event. *)
Definition request_seen (r : http.Request) : LogRecord :=
  (Info, "[egress] " ++ http.method r ++ " "
         ++ EgressProxyAddon.original_url (http.scheme r) (http.host r)
              (http.port r) (http.path r)).

(** A base URL without a query, a fragment, or a tab, carriage return
    or line feed. *)
Definition plain_base_url (b : string) : Prop :=
  Py.contains "?" b = false
  /\ Py.contains "#" b = false
  /\ Py.all (fun c => negb (Urllib.UNSAFE_URL_BYTES_TO_REMOVE c)) b = true.

(** A text that does not end in a slash and has no query or fragment
    mark: what precedes the fixed path in the worker endpoint. *)
Definition tidy (x : string) : Prop :=
  Py.endswith "/" x = false
  /\ Py.contains "?" x = false
  /\ Py.contains "#" x = false.






(* ================================================================== *)
(** * Scenarios *)
(* ================================================================== *)

Module Scenario.

(** Scenario 3 of the specification: the relay, the credential and a
    plain request to [http://openai.com/v1/completions]. *)
Definition relay : Config := mkConfig "https://relay.example.com" "secret".

Definition plain_request : http.Request :=
  http.mkRequest "POST" "http" "openai.com" 80 "/v1/completions"
    [("Host", "openai.com"); ("Content-Type", "application/json")].

Definition start (r : http.Request) : State :=
  mkState (http.mkFlow r None None None) [].

(** The same relay without a credential, and no relay at all. *)
Definition relay_without_key : Config := mkConfig "https://relay.example.com" "".

Definition unconfigured : Config := mkConfig "" "".

(** A relay that serves https on port 80. *)
Definition relay_https_on_80 : Config :=
  mkConfig "https://relay.example.com:80" "secret".

(** A relay whose port is not a number. *)
Definition relay_bad_port : Config :=
  mkConfig "https://relay.example.com:https" "secret".

(** A base URL that carries a query. *)
Definition relay_with_query : Config :=
  mkConfig "https://relay.example.com?tenant=a" "secret".

(** An upgrade request whose header value is padded with a blank. *)
Definition padded_upgrade : http.Request :=
  http.mkRequest "GET" "http" "echo.example.com" 80 "/socket"
    [("Host", "echo.example.com"); ("Connection", "Upgrade");
     ("Upgrade", " websocket")].

(** An upgrade request as a client sends it. *)
Definition upgrade_request : http.Request :=
  http.mkRequest "GET" "http" "echo.example.com" 80 "/socket"
    [("Host", "echo.example.com"); ("Connection", "Upgrade");
     ("upgrade", "WebSocket")].

(** A request that arrives with a credential header of its own. *)
Definition request_with_key : http.Request :=
  http.mkRequest "GET" "https" "api.example.com" 443 "/v1/chat"
    [("Host", "api.example.com"); ("X-Iterate-API-Key", "forged")].

(** A flow in each hook's shape: with a response, and with a session
    holding one client message of 42 bytes. *)
Definition answered : State :=
  mkState (http.mkFlow plain_request (Some (http.mkResponse 200)) None None) [].

Definition in_session : State :=
  mkState
    (http.mkFlow upgrade_request None
       (Some (http.mkWebSocket
                [http.mkMessage true "0123456789012345678901234567890123456789ab"]))
       None) [].

End Scenario.

(* ================================================================== *)
(** * Further notions and scenarios *)
(* ================================================================== *)

(** The header names the request handler writes under. *)
Definition rewrite_header_names : list string :=
  [ "X-Iterate-Original-URL"; "X-Iterate-Original-Host";
    "X-Iterate-Original-Method"; "X-Iterate-API-Key"; "Host" ].

(** A header name that is none of those, compared the way the header
    mapping compares names. *)
Definition untouched_header (key : string) : bool :=
  forallb (fun k => negb (http.Headers.same_key k key)) rewrite_header_names.

(** The record of the [websocket-passthrough] event. *)
Definition passthrough_seen (r : http.Request) : LogRecord :=
  (Info, "[egress] WebSocket passthrough: " ++ http.host r).

(** The record of the [response-received] event. *)
Definition response_received (status : Z) (url : string) : LogRecord :=
  (Info, "[egress] Response " ++ Py.str_of_int status ++ " for " ++ url).

(** The record of the [websocket-message] event. *)
Definition message_seen (from_client : bool) (length : Z) : LogRecord :=
  (Debug, "[egress] WebSocket "
          ++ (if from_client then "client->server" else "server->client")
          ++ ": " ++ Py.str_of_int length ++ " bytes").

(** The record of the [flow-error] event. *)
Definition error_seen (url : string) (e : option string) : LogRecord :=
  (Error, "[egress] Error for " ++ url ++ ": "
          ++ match e with Some msg => msg | None => "None" end).

(** A run of slashes. *)
Fixpoint slashes (n : nat) : string :=
  match n with
  | O => EmptyString
  | S n' => String "/" (slashes n')
  end.

Module MoreScenarios.

(** A base URL written with trailing slashes. *)
Definition relay_with_slashes : Config :=
  mkConfig "https://relay.example.com//" "secret".

(** A relay on a port of its own. *)
Definition relay_on_8443 : Config :=
  mkConfig "https://relay.example.com:8443" "secret".

Definition parsed_relay_on_8443 : Urllib.ParseResult :=
  Urllib.mkParse "https" "relay.example.com:8443" "/api/egress-proxy" "" "" "".

(** What [urlparse] makes of the worker endpoint whose port is not a
    number. *)
Definition parsed_relay_bad_port : Urllib.ParseResult :=
  Urllib.mkParse "https" "relay.example.com:https" "/api/egress-proxy" "" "" "".

(** An upgrade request that carries the [Upgrade] field twice. *)
Definition doubled_upgrade : http.Request :=
  http.mkRequest "GET" "http" "echo.example.com" 80 "/socket"
    [("Host", "echo.example.com"); ("Upgrade", "websocket");
     ("Upgrade", "websocket")].

(** A flow that failed on its way. *)
Definition failed : State :=
  mkState
    (http.mkFlow Scenario.plain_request None None (Some "connection refused")) [].

End MoreScenarios.

(* ================================================================== *)
(** * Facts about strings *)
(* ================================================================== *)

Section StringFacts.


Lemma append_assoc (a b c : string) : (a ++ b) ++ c = a ++ (b ++ c).
Proof. induction a as [|x a IH]; simpl; [reflexivity | now rewrite IH]. Qed.

Lemma all_app (p : ascii -> bool) (a b : string) :
  Py.all p (a ++ b) = Py.all p a && Py.all p b.
Proof.
  induction a as [|x a IH]; simpl; [reflexivity|].
  rewrite IH. now rewrite andb_assoc.
Qed.


(** A character that does not occur, as a property of every character. *)
Lemma contains_false_all (c : ascii) (s : string) :
  Py.contains c s = false <-> Py.all (fun x => negb (Ascii.eqb c x)) s = true.
Proof.
  induction s as [|x s IH]; simpl; [tauto|].
  rewrite orb_false_iff, andb_true_iff, IH, negb_true_iff.
  now rewrite (Ascii.eqb_sym x c).
Qed.

Lemma break_none (p : ascii -> bool) (s : string) :
  Py.all (fun x => negb (p x)) s = true -> Py.break p s = (s, "").
Proof.
  induction s as [|x s IH]; simpl; [reflexivity|].
  intros Hs. apply andb_true_iff in Hs as [Hx Ht].
  apply negb_true_iff in Hx. now rewrite Hx, IH.
Qed.

(** The cut falls at a delimiter that follows a delimiter-free text. *)
Lemma break_at (p : ascii -> bool) (a : string) (c : ascii) (b : string) :
  Py.all (fun x => negb (p x)) a = true -> p c = true ->
  Py.break p (a ++ String c b) = (a, String c b).
Proof.
  intros Ha Hc. induction a as [|x a IH]; simpl.
  - now rewrite Hc.
  - simpl in Ha. apply andb_true_iff in Ha as [Hx Ht].
    apply negb_true_iff in Hx. now rewrite Hx, IH.
Qed.

(** What the cut returns is a decomposition of the text. *)
Lemma break_app (p : ascii -> bool) (s : string) :
  fst (Py.break p s) ++ snd (Py.break p s) = s.
Proof.
  induction s as [|x s IH]; simpl; [reflexivity|].
  destruct (p x); simpl; [reflexivity|].
  destruct (Py.break p s) as [a b]; simpl in *. now rewrite IH.
Qed.

(** Before a text that starts with a delimiter, the cut is the cut of
    what precedes it. *)
Lemma break_before (p : ascii -> bool) (a : string) (c : ascii) (b : string) :
  p c = true ->
  Py.break p (a ++ String c b)
  = (fst (Py.break p a), snd (Py.break p a) ++ String c b).
Proof.
  intros Hc. induction a as [|x a IH]; simpl.
  - now rewrite Hc.
  - destruct (p x); simpl; [reflexivity|].
    rewrite IH. now destruct (Py.break p a).
Qed.

Lemma partition_none (c : ascii) (s : string) :
  Py.contains c s = false -> Py.partition c s = (s, "", "").
Proof.
  intros Hs. unfold Py.partition.
  now rewrite break_none by (now apply contains_false_all).
Qed.

Lemma partition_at (c : ascii) (a b : string) :
  Py.contains c a = false ->
  Py.partition c (a ++ String c b) = (a, String c "", b).
Proof.
  intros Ha. unfold Py.partition.
  rewrite break_at; [reflexivity | now apply contains_false_all |].
  apply Ascii.eqb_refl.
Qed.

Lemma rbreak_none (c : ascii) (s : string) :
  Py.contains c s = false -> Py.rbreak c s = None.
Proof.
  induction s as [|x s IH]; simpl; [reflexivity|].
  intros Hs. apply orb_false_iff in Hs as [Hx Ht].
  now rewrite IH, Hx.
Qed.

Lemma rbreak_at (c : ascii) (a b : string) :
  Py.contains c b = false ->
  Py.rbreak c (a ++ String c b) = Some (a, String c b).
Proof.
  intros Hb. induction a as [|x a IH]; simpl.
  - now rewrite rbreak_none, Ascii.eqb_refl.
  - now rewrite IH.
Qed.


Lemma contains_app (c : ascii) (a b : string) :
  Py.contains c (a ++ b) = Py.contains c a || Py.contains c b.
Proof.
  induction a as [|x a IH]; simpl; [reflexivity|].
  now rewrite IH, orb_assoc.
Qed.

Lemma remove_none (p : ascii -> bool) (s : string) :
  Py.all (fun x => negb (p x)) s = true -> Py.remove p s = s.
Proof.
  induction s as [|x s IH]; simpl; [reflexivity|].
  intros Hs. apply andb_true_iff in Hs as [Hx Ht].
  apply negb_true_iff in Hx. now rewrite Hx, IH.
Qed.

Lemma truthy_true (s : string) : Py.truthy s = true <-> s <> "".
Proof. destruct s; simpl; split; congruence. Qed.

Lemma truthy_false (s : string) : Py.truthy s = false <-> s = "".
Proof. destruct s; simpl; split; congruence. Qed.

End StringFacts.

(* ================================================================== *)
(** * Facts about header mappings *)
(* ================================================================== *)

Section HeaderFacts.

Import http.

Lemma same_key_refl (k : string) : Headers.same_key k k = true.
Proof. apply String.eqb_refl. Qed.

Lemma same_key_left (x k k' : string) :
  Headers.same_key x k = true ->
  Headers.same_key x k' = Headers.same_key k k'.
Proof.
  unfold Headers.same_key. intros Hx.
  apply String.eqb_eq in Hx. now rewrite Hx.
Qed.

Lemma same_key_other (x k k' : string) :
  Headers.same_key x k = true -> Headers.same_key k k' = false ->
  Headers.same_key x k' = false.
Proof. intros Hx Hk. now rewrite (same_key_left _ _ _ Hx). Qed.

(** After [set_all], the fields of that name hold the given values. *)
Lemma get_all_set_all (key key' : string) (values : list string)
    (fields : Headers.t) :
  Headers.same_key key key' = true ->
  Headers.get_all key' (Headers.set_all key values fields) = values.
Proof.
  intros Hk. revert values.
  induction fields as [|[k v] rest IH]; intros values; simpl.
  - induction values as [|x xs IHx]; simpl; [reflexivity|].
    now rewrite Hk, IHx.
  - destruct (Headers.same_key k key) eqn:Hkk.
    + destruct values as [|x xs]; [apply IH|].
      simpl. rewrite (same_key_left _ _ _ Hkk), Hk. now rewrite IH.
    + simpl. destruct (Headers.same_key k key') eqn:Hkk'; [|apply IH].
      exfalso. unfold Headers.same_key in *.
      apply String.eqb_eq in Hk, Hkk'. apply String.eqb_neq in Hkk.
      congruence.
Qed.

(** [set_all] leaves the fields of every other name as they were. *)
Lemma get_all_set_all_other (key key' : string) (values : list string)
    (fields : Headers.t) :
  Headers.same_key key key' = false ->
  Headers.get_all key' (Headers.set_all key values fields)
  = Headers.get_all key' fields.
Proof.
  intros Hk. revert values.
  induction fields as [|[k v] rest IH]; intros values; simpl.
  - induction values as [|x xs IHx]; simpl; [reflexivity|].
    now rewrite Hk.
  - destruct (Headers.same_key k key) eqn:Hkk.
    + rewrite (same_key_other _ _ _ Hkk Hk).
      destruct values as [|x xs]; [apply IH|].
      simpl. rewrite (same_key_other _ _ _ Hkk Hk). apply IH.
    + simpl. destruct (Headers.same_key k key'); [f_equal|]; apply IH.
Qed.

Lemma get_all_set (key value : string) (fields : Headers.t) :
  Headers.get_all key (Headers.set key value fields) = [value].
Proof. apply get_all_set_all, same_key_refl. Qed.

Lemma get_all_set_other (key key' value : string) (fields : Headers.t) :
  Headers.same_key key key' = false ->
  Headers.get_all key' (Headers.set key value fields)
  = Headers.get_all key' fields.
Proof. apply get_all_set_all_other. Qed.

Lemma get_set_other (key key' value default : string) (fields : Headers.t) :
  Headers.same_key key key' = false ->
  Headers.get key' default (Headers.set key value fields)
  = Headers.get key' default fields.
Proof.
  intros Hk. unfold Headers.get. now rewrite get_all_set_other.
Qed.

End HeaderFacts.

(* ================================================================== *)
(** * Runs of the request handler *)
(* ================================================================== *)

Section RequestRuns.

Context `{BracketedNetloc}.
Import http.

(** A WebSocket upgrade: one log record, nothing else. *)
Lemma request_run_upgrade (cfg : Config) (s : State) :
  is_websocket_upgrade (req s) = true ->
  EgressProxyAddon.request cfg s
  = (Ok tt, logged Info ("[egress] WebSocket passthrough: " ++ host (req s)) s).
Proof.
  intros Hup. unfold EgressProxyAddon.request, bind, read.
  unfold is_websocket_upgrade, req in Hup. now rewrite Hup.
Qed.

(** No worker endpoint: the request is logged and left alone. *)
Lemma request_run_unconfigured (cfg : Config) (s : State) :
  is_websocket_upgrade (req s) = false ->
  Py.truthy (WORKER_ENDPOINT cfg) = false ->
  EgressProxyAddon.request cfg s
  = (Ok tt, mkState (flow s) (log s ++ [request_seen (req s)])).
Proof.
  intros Hup Hw. unfold EgressProxyAddon.request, bind, read.
  unfold is_websocket_upgrade, req in Hup. rewrite Hup.
  unfold emit. simpl. now rewrite Hw.
Qed.

(** A worker endpoint with a host and a well-formed port: the rewrite. *)
Lemma request_run_rewrite (cfg : Config) (s : State)
    (parsed : Urllib.ParseResult) (hostname : string) (port : option Z) :
  is_websocket_upgrade (req s) = false ->
  Py.truthy (WORKER_ENDPOINT cfg) = true ->
  Urllib.urlparse (WORKER_ENDPOINT cfg) = Ok parsed ->
  Urllib.hostname parsed = Some hostname ->
  Urllib.port parsed = Ok port ->
  EgressProxyAddon.request cfg s
  = (Ok tt,
     mkState
       (mkFlow
          (mkRequest (method (req s)) (Urllib.scheme parsed) hostname
             (EgressProxyAddon.port_or_default port (Urllib.scheme parsed))
             (EgressProxyAddon.path_or_default (Urllib.path parsed))
             (rewritten_headers cfg (host_value hostname port) (req s)))
          (response (flow s)) (websocket (flow s)) (error (flow s)))
       (log s ++ [request_seen (req s)])).
Proof.
  intros Hup Hw Hparse Hhost Hport.
  unfold EgressProxyAddon.request, bind, read.
  unfold is_websocket_upgrade, req in Hup. rewrite Hup.
  unfold emit, lift, set_header, update. simpl.
  rewrite Hw, Hparse. simpl.
  unfold rewritten_headers, host_value, request_seen, req.
  destruct (Py.truthy (API_KEY cfg)); simpl;
    rewrite Hhost; simpl; rewrite Hport; simpl;
    destruct (EgressProxyAddon.port_is_shown port); simpl;
    rewrite ?Hhost; simpl; rewrite ?Hport; reflexivity.
Qed.

(** A relay endpoint is what [urlparse] yields when it yields a host and
    a port. *)
Lemma relay_endpoint_some (cfg : Config) (ep : RelayEndpoint) :
  relay_endpoint cfg = Ok (Some ep) ->
  Py.truthy (WORKER_ENDPOINT cfg) = true
  /\ exists parsed hostname port,
       Urllib.urlparse (WORKER_ENDPOINT cfg) = Ok parsed
       /\ Urllib.hostname parsed = Some hostname
       /\ Urllib.port parsed = Ok port
       /\ ep = mkRelay (Urllib.scheme parsed) hostname
                 (EgressProxyAddon.port_or_default port (Urllib.scheme parsed))
                 (EgressProxyAddon.path_or_default (Urllib.path parsed)).
Proof.
  unfold relay_endpoint.
  destruct (Py.truthy (WORKER_ENDPOINT cfg)); [|discriminate].
  destruct (Urllib.urlparse (WORKER_ENDPOINT cfg)) as [parsed|]; [|discriminate].
  simpl. destruct (Urllib.hostname parsed) as [hn|] eqn:Hhost; [|discriminate].
  destruct (Urllib.port parsed) as [p|] eqn:Hport; [|discriminate].
  simpl. intros [= <-]. split; [reflexivity|].
  exists parsed, hn, p. repeat split; assumption || reflexivity.
Qed.


Lemma worker_endpoint_unset (cfg : Config) :
  BASE_URL cfg = "" -> Py.truthy (WORKER_ENDPOINT cfg) = false.
Proof. unfold WORKER_ENDPOINT. now intros ->. Qed.

End RequestRuns.

(* ================================================================== *)
(** * The URL normalizer *)
(* ================================================================== *)

Section Normalizer.

Import EgressProxyAddon.

(** C4. For a scheme among http and https, any host, any positive port
    and any path, the original URL is [scheme://host] followed by the
    path when the port is the scheme's default (80 for http, 443 for
    https), and [scheme://host:port] followed by the path otherwise. *)
Theorem original_url_omits_default_port
    (scheme host : string) (port : Z) (path : string) :
  scheme = "http" \/ scheme = "https" ->
  0 < port ->
  original_url scheme host port path
  = if match http.default_port scheme with
       | Some d => d =? port
       | None => false
       end
    then scheme ++ "://" ++ host ++ path
    else scheme ++ "://" ++ host ++ ":" ++ Py.str_of_int port ++ path.
Proof.
  intros [-> | ->] _; unfold original_url; simpl;
    rewrite ?orb_false_r, (Z.eqb_sym port); reflexivity.
Qed.

(** The two scenarios of the specification, through the theorem. *)
Lemma original_url_scenarios :
  original_url "https" "internal.svc" 8443 "/x" = "https://internal.svc:8443/x"
  /\ original_url "https" "api.example.com" 443 "/v1/chat"
     = "https://api.example.com/v1/chat".
Proof.
  split.
  - rewrite (original_url_omits_default_port "https" "internal.svc" 8443 "/x");
      [reflexivity | now right | lia].
  - rewrite (original_url_omits_default_port "https" "api.example.com" 443 "/v1/chat");
      [reflexivity | now right | lia].
Defined.

End Normalizer.

(* ================================================================== *)
(** * The request handler *)
(* ================================================================== *)

Section RequestHandler.

Context `{BracketedNetloc}.
Import http.

Ltac other_header :=
  rewrite ?get_all_set_other by reflexivity.

(** The stores of the rewrite leave the [Upgrade] header alone. *)
Lemma rewritten_headers_upgrade (cfg : Config) (hv : string) (r : Request) :
  Headers.get "Upgrade" "" (rewritten_headers cfg hv r)
  = Headers.get "Upgrade" "" (headers r).
Proof.
  unfold rewritten_headers.
  rewrite get_set_other by reflexivity.
  destruct (Py.truthy (API_KEY cfg));
    now rewrite !get_set_other by reflexivity.
Qed.

(** What a rewrite leaves behind: the relay's destination, the three
    stamps, and a request that is still not an upgrade. *)
Lemma rewrite_postcondition (cfg : Config) (s : State) (ep : RelayEndpoint) :
  is_websocket_upgrade (req s) = false ->
  relay_endpoint cfg = Ok (Some ep) ->
  exists s',
    EgressProxyAddon.request cfg s = (Ok tt, s')
    /\ is_websocket_upgrade (req s') = false
    /\ host (req s') = relay_hostname ep
    /\ port (req s') = relay_port ep
    /\ scheme (req s') = relay_scheme ep
    /\ path (req s') = relay_path ep
    /\ Headers.get_all "X-Iterate-Original-URL" (headers (req s'))
       = [EgressProxyAddon.original_url (scheme (req s)) (host (req s))
            (port (req s)) (path (req s))]
    /\ Headers.get_all "X-Iterate-Original-Host" (headers (req s'))
       = [host (req s)]
    /\ Headers.get_all "X-Iterate-Original-Method" (headers (req s'))
       = [method (req s)].
Proof.
  intros Hstd Hep.
  apply relay_endpoint_some in Hep
    as (Hw & parsed & hn & p & Hparse & Hhost & Hport & ->).
  eexists. split.
  - apply (request_run_rewrite cfg s parsed hn p); assumption.
  - split.
    + unfold is_websocket_upgrade, req at 1. simpl.
      rewrite rewritten_headers_upgrade. exact Hstd.
    + unfold req at 1 2 3 4 5 6 7. simpl. unfold rewritten_headers.
      repeat split; other_header;
        destruct (Py.truthy (API_KEY cfg)); other_header;
        apply get_all_set.
Qed.


(** C2, as amended. For every request whose Upgrade header value equals
    [websocket] without regard to case (the value as it is stored: the
    handler does not trim it), the request handler returns and leaves
    the request exactly as it was, fields and headers; it only logs the
    passthrough. *)
Theorem request_leaves_upgrade_untouched (cfg : Config) (s : State) :
  is_websocket_upgrade (req s) = true ->
  exists s',
    EgressProxyAddon.request cfg s = (Ok tt, s')
    /\ flow s' = flow s
    /\ log s'
       = (log s
          ++ [(Info, ("[egress] WebSocket passthrough: " ++ host (req s))%string)])%list.
Proof.
  intros Hup. eexists. split; [now apply request_run_upgrade|].
  split; reflexivity.
Qed.

(** C3. For every request that is not a WebSocket upgrade, when the
    relay base URL is empty, the request handler returns with the flow
    exactly as it was; the classification has run and the request-seen
    record has been logged. *)
Theorem request_passes_through_when_unconfigured (cfg : Config) (s : State) :
  BASE_URL cfg = "" ->
  is_websocket_upgrade (req s) = false ->
  exists s',
    EgressProxyAddon.request cfg s = (Ok tt, s')
    /\ flow s' = flow s
    /\ log s' = (log s ++ [request_seen (req s)])%list.
Proof.
  intros Hbase Hstd. eexists. split.
  - apply request_run_unconfigured; [assumption|].
    now apply worker_endpoint_unset.
  - split; reflexivity.
Qed.

(** The [Host] field of a rewritten request. *)
Lemma request_host_header (cfg : Config) (s : State)
    (parsed : Urllib.ParseResult) (hostname : string) (p : option Z) :
  is_websocket_upgrade (req s) = false ->
  Py.truthy (WORKER_ENDPOINT cfg) = true ->
  Urllib.urlparse (WORKER_ENDPOINT cfg) = Ok parsed ->
  Urllib.hostname parsed = Some hostname ->
  Urllib.port parsed = Ok p ->
  exists s',
    EgressProxyAddon.request cfg s = (Ok tt, s')
    /\ Headers.get_all "Host" (headers (req s')) = [host_value hostname p].
Proof.
  intros Hstd Hw Hparse Hhost Hport. eexists. split.
  - apply (request_run_rewrite cfg s parsed hostname p); assumption.
  - unfold req at 1. simpl. unfold rewritten_headers. apply get_all_set.
Qed.

(** Where the relay's port is written out and is neither 80 nor 443, or
    is left out, the [Host] value is the one the scheme's default port
    calls for. *)
Lemma host_value_by_scheme (scheme hostname : string) (p : option Z) :
  scheme = "http" \/ scheme = "https" ->
  p <> Some 80 -> p <> Some 443 ->
  host_value hostname p
  = if scheme_default scheme (EgressProxyAddon.port_or_default p scheme)
    then hostname
    else hostname ++ ":"
         ++ Py.str_of_int (EgressProxyAddon.port_or_default p scheme).
Proof.
  intros Hs H80 H443. unfold host_value, scheme_default.
  destruct p as [p|]; simpl.
  - destruct (Z.eqb_spec p 0) as [->|H0]; simpl.
    + destruct Hs as [-> | ->]; reflexivity.
    + destruct (Z.eqb_spec p 80) as [->|_]; [congruence|].
      destruct (Z.eqb_spec p 443) as [->|_]; [congruence|].
      simpl. now rewrite !andb_false_r.
  - destruct Hs as [-> | ->]; reflexivity.
Qed.

End RequestHandler.

Section Credential.

Context `{BracketedNetloc}.
Import http.

(** C6, as amended. For every request that is rewritten: when a
    credential is configured, the X-Iterate-API-Key header holds the
    credential and nothing else; when none is configured, the handler
    does not touch that header, so the rewritten request carries exactly
    the values the incoming request carried, none if it had none. *)
Theorem request_credential_header (cfg : Config) (s : State) (ep : RelayEndpoint) :
  is_websocket_upgrade (req s) = false ->
  relay_endpoint cfg = Ok (Some ep) ->
  exists s',
    EgressProxyAddon.request cfg s = (Ok tt, s')
    /\ (API_KEY cfg <> "" ->
        Headers.get_all "X-Iterate-API-Key" (headers (req s')) = [API_KEY cfg])
    /\ (API_KEY cfg = "" ->
        Headers.get_all "X-Iterate-API-Key" (headers (req s'))
        = Headers.get_all "X-Iterate-API-Key" (headers (req s))).
Proof.
  intros Hstd Hep.
  apply relay_endpoint_some in Hep
    as (Hw & parsed & hn & p & Hparse & Hhost & Hport & ->).
  eexists. split.
  - apply (request_run_rewrite cfg s parsed hn p); assumption.
  - unfold req at 1 2. simpl. unfold rewritten_headers.
    rewrite get_all_set_other by reflexivity.
    split; intros Hkey.
    + apply truthy_true in Hkey. rewrite Hkey. apply get_all_set.
    + apply truthy_false in Hkey. rewrite Hkey.
      now rewrite !get_all_set_other by reflexivity.
Qed.

End Credential.

(* ================================================================== *)
(** * Totality of the handlers *)
(* ================================================================== *)

Section Totality.

Context `{BracketedNetloc}.
Import http.


Lemma init_returns (cfg : Config) (s : State) :
  returns (EgressProxyAddon.__init__ cfg) s.
Proof.
  unfold returns, EgressProxyAddon.__init__, bind.
  destruct (Py.truthy (BASE_URL cfg)), (Py.truthy (API_KEY cfg));
    simpl; now eexists.
Qed.




Lemma last_some {A : Type} (l : list A) : l <> [] -> exists x, Py.last l = Some x.
Proof.
  induction l as [|a l IH]; [congruence|].
  intros _. destruct l as [|b l]; [now exists a|].
  destruct IH as [x Hx]; [discriminate|]. now exists x.
Qed.

Lemma websocket_message_returns (s : State) :
  has_message s -> returns EgressProxyAddon.websocket_message s.
Proof.
  intros (ws & Hws & Hmsgs).
  destruct (last_some _ Hmsgs) as [m Hm].
  unfold returns, EgressProxyAddon.websocket_message, bind, read_flow.
  rewrite Hws, Hm. now eexists.
Qed.



(** The conditions are needed: each handler raises where its condition
    fails. *)
Lemma response_raises_without_response (s : State) :
  response (flow s) = None ->
  EgressProxyAddon.response s = (Raise AttributeError, s).
Proof.
  intros Hr. unfold EgressProxyAddon.response, bind, read, read_flow.
  now rewrite Hr.
Qed.

Lemma websocket_message_raises_without_session (s : State) :
  websocket (flow s) = None ->
  EgressProxyAddon.websocket_message s = (Raise AssertionError, s).
Proof.
  intros Hw. unfold EgressProxyAddon.websocket_message, bind, read_flow.
  now rewrite Hw.
Qed.

End Totality.

(* ================================================================== *)
(** * Handling a request twice *)
(* ================================================================== *)

Section Twice.

Context `{BracketedNetloc}.
Import http.

(** Handling a rewritten request again stamps the relay's own address:
    the second run finds the relay's scheme, host, port and path in the
    request and records those as the original ones. *)
Lemma request_twice (cfg : Config) (s : State) (ep : RelayEndpoint) :
  is_websocket_upgrade (req s) = false ->
  relay_endpoint cfg = Ok (Some ep) ->
  exists s1 s2,
    EgressProxyAddon.request cfg s = (Ok tt, s1)
    /\ EgressProxyAddon.request cfg s1 = (Ok tt, s2)
    /\ Headers.get_all "X-Iterate-Original-URL" (headers (req s2))
       = [EgressProxyAddon.original_url (relay_scheme ep) (relay_hostname ep)
            (relay_port ep) (relay_path ep)]
    /\ Headers.get_all "X-Iterate-Original-Host" (headers (req s2))
       = [relay_hostname ep].
Proof.
  intros Hstd Hep.
  destruct (rewrite_postcondition cfg s ep Hstd Hep)
    as (s1 & Hrun1 & Hstd1 & Hh & Hp & Hs & Hpa & _).
  destruct (rewrite_postcondition cfg s1 ep Hstd1 Hep)
    as (s2 & Hrun2 & _ & _ & _ & _ & _ & Hurl & Hhost & _).
  exists s1, s2. rewrite Hh, Hp, Hs, Hpa in *. auto.
Qed.

End Twice.

(* ================================================================== *)
(** * The path of the worker endpoint *)
(* ================================================================== *)

Section WorkerPath.
Context `{BracketedNetloc}.
Local Arguments Ascii.eqb : simpl never.

Lemma eqb_slash_long (x : ascii) (t : string) :
  t <> "" -> String.eqb "/" (String x t) = false.
Proof.
  intros Ht. destruct t; [congruence|].
  cbn [String.eqb]. apply andb_false_r.
Qed.

Lemma endswith_cons (p : string) (x : ascii) (t : string) :
  Py.endswith p (String x t) = String.eqb p (String x t) || Py.endswith p t.
Proof. reflexivity. Qed.

Lemma endswith_slash_app (a b : string) :
  b <> "" -> Py.endswith "/" (a ++ b) = Py.endswith "/" b.
Proof.
  intros Hb. induction a as [|x a IH]; [reflexivity|].
  cbn [append]. rewrite endswith_cons, IH.
  rewrite eqb_slash_long; [reflexivity|].
  destruct a; simpl; [assumption | discriminate].
Qed.

Lemma endswith_slash_suffix (a b : string) :
  Py.endswith "/" (a ++ b) = false -> Py.endswith "/" b = false.
Proof.
  destruct b as [|c b]; [reflexivity|].
  now rewrite endswith_slash_app.
Qed.

Lemma rstrip_no_trailing (s : string) :
  Py.endswith "/" (Py.rstrip "/" s) = false.
Proof.
  induction s as [|x s IH]; [reflexivity|].
  cbn [Py.rstrip]. destruct (Py.rstrip "/" s) as [|y t] eqn:Hr.
  - destruct (Ascii.eqb_spec x "/") as [->|Hx]; [reflexivity|].
    simpl. destruct (Ascii.eqb_spec "/" x); [congruence|reflexivity].
  - rewrite endswith_cons, IH.
    now rewrite eqb_slash_long.
Qed.

Lemma rstrip_all (p : ascii -> bool) (c : ascii) (s : string) :
  Py.all p s = true -> Py.all p (Py.rstrip c s) = true.
Proof.
  induction s as [|x s IH]; [reflexivity|].
  cbn [Py.all Py.rstrip]. intros Hs. apply andb_true_iff in Hs as [Hx Ht].
  specialize (IH Ht). destruct (Py.rstrip c s) as [|y t].
  - destruct (Ascii.eqb x c); simpl; [reflexivity | now rewrite Hx].
  - cbn [Py.all] in *. now rewrite Hx, IH.
Qed.

Lemma lstrip_suffix (p : ascii -> bool) (s : string) :
  exists pre, s = pre ++ Py.lstrip p s.
Proof.
  induction s as [|x s [pre IH]]; [now exists ""|].
  cbn [Py.lstrip]. destruct (p x).
  - exists (String x pre). simpl. now rewrite <- IH.
  - now exists "".
Qed.

Lemma lstrip_app (p : ascii -> bool) (a : string) (c : ascii) (b : string) :
  p c = false -> Py.lstrip p (a ++ String c b) = Py.lstrip p a ++ String c b.
Proof.
  intros Hc. induction a as [|x a IH]; simpl.
  - now rewrite Hc.
  - destruct (p x); [apply IH | reflexivity].
Qed.

Lemma contains_split (c : ascii) (s : string) :
  Py.contains c s = true ->
  exists a b, s = a ++ String c b /\ Py.contains c a = false.
Proof.
  induction s as [|x s IH]; [discriminate|].
  simpl. destruct (Ascii.eqb_spec x c) as [->|Hx]; simpl.
  - intros _. now exists "", s.
  - intros Hs. destruct (IH Hs) as (a & b & -> & Ha).
    exists (String x a), b. split; [reflexivity|].
    simpl. destruct (Ascii.eqb_spec x c); [congruence | assumption].
Qed.

Lemma contains_suffix (c : ascii) (a b : string) :
  Py.contains c (a ++ b) = false -> Py.contains c b = false.
Proof. rewrite contains_app. now intros [_ ?]%orb_false_iff. Qed.


Lemma tidy_suffix (a b : string) : tidy (a ++ b) -> tidy b.
Proof.
  intros (He & Hq & Hh). repeat split.
  - now apply endswith_slash_suffix with a.
  - now apply contains_suffix with a.
  - now apply contains_suffix with a.
Qed.

(** Splitting a scheme off leaves a tidy text in front of the path. *)
Lemma split_scheme_tidy (x sfx : string) :
  tidy x -> Py.contains ":" sfx = false ->
  exists sch x',
    Urllib.split_scheme (x ++ sfx) = (sch, x' ++ sfx) /\ tidy x'.
Proof.
  intros Hx Hsfx. unfold Urllib.split_scheme.
  destruct (Py.contains ":" x) eqn:Hc.
  - destruct (contains_split _ _ Hc) as (a & b & -> & Ha).
    rewrite append_assoc. cbn [append]. rewrite partition_at by assumption.
    destruct a as [|c0 a].
    + exists "", (String ":" b). split; [reflexivity | assumption].
    + destruct (Urllib.isalpha c0 && Py.all Urllib.scheme_chars (String c0 a)).
      * exists (Py.lower (String c0 a)), b. split; [reflexivity|].
        apply (tidy_suffix (String c0 a ++ ":")). now rewrite append_assoc.
      * exists "", (String c0 a ++ String ":" b). split; [|assumption].
        now rewrite append_assoc.
  - rewrite partition_none by (now rewrite contains_app, Hc).
    exists "", x. split; [|assumption].
    now destruct (x ++ sfx).
Qed.

(** The network location ends at the latest where the path begins. *)
Lemma splitnetloc_tidy (x sfx : string) :
  tidy x -> Py.startswith "//" (x ++ String "/" (String "a" sfx)) = true ->
  exists n y,
    Urllib._splitnetloc (x ++ String "/" (String "a" sfx))
    = (n, y ++ String "/" (String "a" sfx))
    /\ Py.contains "?" y = false /\ Py.contains "#" y = false.
Proof.
  intros (He & Hq & Hh) Hsw.
  destruct x as [|c1 [|c2 x]].
  - discriminate.
  - cbn [append Py.startswith] in Hsw.
    apply andb_true_iff in Hsw as [Hc1 _]. apply Ascii.eqb_eq in Hc1.
    subst c1. discriminate.
  - cbn [append Urllib._splitnetloc].
    rewrite break_before by reflexivity.
    exists (fst (Py.break Urllib.netloc_delim x)),
           (snd (Py.break Urllib.netloc_delim x)).
    split; [reflexivity|].
    pose proof (break_app Urllib.netloc_delim x) as Hx.
    split.
    + apply contains_suffix with (String c1 (String c2 (fst (Py.break Urllib.netloc_delim x)))).
      cbn [append]. now rewrite Hx.
    + apply contains_suffix with (String c1 (String c2 (fst (Py.break Urllib.netloc_delim x)))).
      cbn [append]. now rewrite Hx.
Qed.

Lemma split_once_none (c : ascii) (s : string) :
  Py.contains c s = false -> Urllib.split_once c s = (s, "").
Proof. intros Hs. unfold Urllib.split_once. now rewrite partition_none. Qed.

Lemma splitparams_worker (y : string) :
  Urllib._splitparams (y ++ "/api/egress-proxy") = (y ++ "/api/egress-proxy", "").
Proof.
  unfold Urllib._splitparams.
  change (y ++ "/api/egress-proxy") with (y ++ "/api" ++ String "/" "egress-proxy").
  rewrite <- append_assoc, rbreak_at by reflexivity.
  reflexivity.
Qed.


Lemma sanitize_worker (b : string) :
  Py.all (fun c => negb (Urllib.UNSAFE_URL_BYTES_TO_REMOVE c)) b = true ->
  Urllib.sanitize (b ++ "/api/egress-proxy")
  = Py.lstrip Urllib.WHATWG_C0_CONTROL_OR_SPACE b ++ "/api/egress-proxy".
Proof.
  intros Hb. unfold Urllib.sanitize.
  rewrite lstrip_app by reflexivity.
  apply remove_none. rewrite all_app.
  destruct (lstrip_suffix Urllib.WHATWG_C0_CONTROL_OR_SPACE b) as [pre Hpre].
  rewrite Hpre, all_app in Hb. apply andb_true_iff in Hb as [_ Hb].
  now rewrite Hb.
Qed.

Lemma lstrip_rstrip_tidy (b : string) :
  Py.contains "?" b = false -> Py.contains "#" b = false ->
  tidy (Py.lstrip Urllib.WHATWG_C0_CONTROL_OR_SPACE (Py.rstrip "/" b)).
Proof.
  intros Hq Hh.
  destruct (lstrip_suffix Urllib.WHATWG_C0_CONTROL_OR_SPACE (Py.rstrip "/" b))
    as [pre Hpre].
  apply (tidy_suffix pre). rewrite <- Hpre.
  repeat split.
  - apply rstrip_no_trailing.
  - apply contains_false_all, rstrip_all. now apply contains_false_all.
  - apply contains_false_all, rstrip_all. now apply contains_false_all.
Qed.

(** The path of the worker endpoint ends in the fixed path. *)
Lemma worker_endpoint_path (cfg : Config) (parsed : Urllib.ParseResult) :
  BASE_URL cfg <> "" ->
  plain_base_url (BASE_URL cfg) ->
  Urllib.urlparse (WORKER_ENDPOINT cfg) = Ok parsed ->
  exists y, Urllib.path parsed = y ++ "/api/egress-proxy".
Proof.
  intros Hset (Hq & Hh & Hu) Hparse.
  unfold WORKER_ENDPOINT in Hparse.
  apply truthy_true in Hset. rewrite Hset in Hparse.
  unfold Urllib.urlparse, Urllib.urlsplit in Hparse.
  rewrite sanitize_worker in Hparse by (now apply rstrip_all).
  destruct (split_scheme_tidy _ "/api/egress-proxy"
              (lstrip_rstrip_tidy _ Hq Hh) eq_refl)
    as (sch & x & Hss & Hx).
  rewrite Hss in Hparse.
  assert (exists n y,
             (if Py.startswith "//" (x ++ "/api/egress-proxy")
              then Urllib._splitnetloc (x ++ "/api/egress-proxy")
              else ("", x ++ "/api/egress-proxy"))
             = (n, y ++ "/api/egress-proxy")
             /\ Py.contains "?" y = false /\ Py.contains "#" y = false)
    as (n & y & Hnet & Hyq & Hyh).
  { destruct (Py.startswith "//" (x ++ "/api/egress-proxy")) eqn:Hsw.
    - now apply splitnetloc_tidy.
    - exists "", x. destruct Hx as (_ & ? & ?). auto. }
  rewrite Hnet in Hparse.
  destruct (Urllib.check_brackets n); [|discriminate].
  cbn [result_bind] in Hparse.
  rewrite (split_once_none "#") in Hparse
    by (now rewrite contains_app, Hyh).
  rewrite (split_once_none "?") in Hparse
    by (now rewrite contains_app, Hyq).
  cbn [result_bind Urllib.s_scheme Urllib.s_path Urllib.s_netloc
       Urllib.s_query Urllib.s_fragment] in Hparse.
  rewrite splitparams_worker in Hparse.
  exists y.
  destruct (existsb (String.eqb sch) Urllib.uses_params
            && Py.contains ";" (y ++ "/api/egress-proxy"));
    injection Hparse as <-; reflexivity.
Qed.

Lemma endswith_app (p y : string) : Py.endswith p (y ++ p) = true.
Proof.
  induction y as [|x y IH].
  - destruct p; [reflexivity|].
    cbn [append]. rewrite endswith_cons, String.eqb_refl. reflexivity.
  - cbn [append]. rewrite endswith_cons, IH. apply orb_true_r.
Qed.

(** C10, as amended. Whenever the relay base URL is not empty and has no
    query mark, no fragment mark and no tab, carriage return or line feed,
    the path of the parsed worker endpoint is not empty and ends in
    [/api/egress-proxy]; every rewritten request then gets exactly that
    path, and the fallback to the default path is not taken. *)
Theorem worker_endpoint_path_is_fixed (cfg : Config) (s : State) (ep : RelayEndpoint) :
  BASE_URL cfg <> "" ->
  plain_base_url (BASE_URL cfg) ->
  is_websocket_upgrade (req s) = false ->
  relay_endpoint cfg = Ok (Some ep) ->
  exists parsed s',
    Urllib.urlparse (WORKER_ENDPOINT cfg) = Ok parsed
    /\ Urllib.path parsed <> ""
    /\ Py.endswith "/api/egress-proxy" (Urllib.path parsed) = true
    /\ EgressProxyAddon.request cfg s = (Ok tt, s')
    /\ http.path (req s') = Urllib.path parsed.
Proof.
  intros Hset Hplain Hstd Hep.
  apply relay_endpoint_some in Hep
    as (Hw & parsed & hn & p & Hparse & Hhost & Hport & _).
  destruct (worker_endpoint_path cfg parsed Hset Hplain Hparse) as [y Hy].
  exists parsed. eexists. split; [exact Hparse|].
  split; [rewrite Hy; now destruct y|].
  split; [rewrite Hy; apply endswith_app|].
  split; [apply (request_run_rewrite cfg s parsed hn p); assumption|].
  unfold req. cbn [flow http.request http.path].
  rewrite Hy. now destruct y.
Qed.

End WorkerPath.

(* ================================================================== *)
(** * Parsing the original URL back *)
(* ================================================================== *)

Section RoundTrip.
Context `{BracketedNetloc}.
Local Arguments Ascii.eqb : simpl never.


























End RoundTrip.

(* ================================================================== *)
(** * The scenarios, evaluated *)
(* ================================================================== *)

Section Evaluated.

Local Existing Instance no_bracketed_host.
Import http.

Ltac evaluate := vm_compute; reflexivity.


(** Scenario 3 in full: the rewritten request and the log. *)
Lemma scenario_3 :
  EgressProxyAddon.request Scenario.relay (Scenario.start Scenario.plain_request)
  = (Ok tt,
     mkState
       (mkFlow
          (mkRequest "POST" "https" "relay.example.com" 443 "/api/egress-proxy"
             [("Host", "relay.example.com");
              ("Content-Type", "application/json");
              ("X-Iterate-Original-URL", "http://openai.com/v1/completions");
              ("X-Iterate-Original-Host", "openai.com");
              ("X-Iterate-Original-Method", "POST");
              ("X-Iterate-API-Key", "secret")])
          None None None)
       [(Info, "[egress] POST http://openai.com/v1/completions")]).
Proof. reflexivity. Qed.

Lemma request_leaves_upgrade_untouched_scenario :
  exists s',
    EgressProxyAddon.request Scenario.relay (Scenario.start Scenario.upgrade_request)
    = (Ok tt, s')
    /\ flow s' = flow (Scenario.start Scenario.upgrade_request)
    /\ log s' = [(Info, "[egress] WebSocket passthrough: echo.example.com")].
Proof.
  exact (request_leaves_upgrade_untouched Scenario.relay
           (Scenario.start Scenario.upgrade_request) eq_refl).
Defined.

(** C2, as stated, fails: an [Upgrade] value padded with a blank is
    [websocket] after trimming, yet the handler compares the value as it
    is stored and rewrites the request. *)
Lemma padded_upgrade_is_rewritten :
  spec_is_websocket_upgrade Scenario.padded_upgrade = true
  /\ exists s',
       EgressProxyAddon.request Scenario.relay (Scenario.start Scenario.padded_upgrade)
       = (Ok tt, s')
       /\ host (req s') = "relay.example.com"
       /\ Headers.get_all "X-Iterate-Original-Host" (headers (req s'))
          = ["echo.example.com"]
       /\ req s' <> Scenario.padded_upgrade.
Proof.
  split; [reflexivity|].
  eexists. split; [evaluate|].
  split; [evaluate|]. split; [evaluate|]. vm_compute. discriminate.
Qed.

Lemma request_passes_through_when_unconfigured_scenario :
  exists s',
    EgressProxyAddon.request Scenario.unconfigured
      (Scenario.start Scenario.plain_request) = (Ok tt, s')
    /\ flow s' = flow (Scenario.start Scenario.plain_request)
    /\ log s' = [(Info, "[egress] POST http://openai.com/v1/completions")].
Proof.
  exact (request_passes_through_when_unconfigured Scenario.unconfigured
           (Scenario.start Scenario.plain_request) eq_refl eq_refl).
Defined.

(** C5. With the relay at [https://relay.example.com:80] the rewritten
    request goes to port 80 under the scheme https, whose default port is
    443, and the handler still sets the [Host] header to the host name
    alone: it leaves the port out for 80 and for 443 under either
    scheme. *)
Theorem host_header_drops_port_80_under_https :
  exists s',
    EgressProxyAddon.request Scenario.relay_https_on_80
      (Scenario.start Scenario.plain_request) = (Ok tt, s')
    /\ scheme (req s') = "https"
    /\ port (req s') = 80
    /\ default_port "https" = Some 443
    /\ Headers.get_all "Host" (headers (req s')) = ["relay.example.com"].
Proof.
  eexists. split; [evaluate|]. repeat split.
Qed.

Lemma request_credential_header_scenario :
  exists s',
    EgressProxyAddon.request Scenario.relay (Scenario.start Scenario.plain_request)
    = (Ok tt, s')
    /\ Headers.get_all "X-Iterate-API-Key" (headers (req s')) = ["secret"].
Proof.
  destruct (request_credential_header Scenario.relay
              (Scenario.start Scenario.plain_request)
              (mkRelay "https" "relay.example.com" 443 "/api/egress-proxy")
              eq_refl eq_refl) as (s' & Hrun & Hset & _).
  exists s'. split; [exact Hrun|]. apply Hset. discriminate.
Defined.

(** C6, as stated, fails: without a credential the handler leaves the
    header alone, so a request that arrives with an X-Iterate-API-Key
    header of its own still has it after the rewrite. *)
Lemma rewrite_keeps_incoming_key :
  API_KEY Scenario.relay_without_key = ""
  /\ exists s',
       EgressProxyAddon.request Scenario.relay_without_key
         (Scenario.start Scenario.request_with_key) = (Ok tt, s')
       /\ host (req s') = "relay.example.com"
       /\ Headers.get_all "X-Iterate-API-Key" (headers (req s')) = ["forged"].
Proof.
  split; [reflexivity|]. eexists. split; [evaluate|]. split; evaluate.
Qed.


(** A configuration that is not well formed: the port of the relay is not
    a number, and the handler raises once the headers are stamped and the
    host is stored. *)
Lemma request_raises_on_bad_port :
  exists s',
    EgressProxyAddon.request Scenario.relay_bad_port
      (Scenario.start Scenario.plain_request) = (Raise ValueError, s')
    /\ host (req s') = "relay.example.com"
    /\ port (req s') = 80
    /\ Headers.get_all "X-Iterate-Original-Host" (headers (req s')) = ["openai.com"].
Proof. eexists. split; [evaluate|]. repeat split. Qed.

(** Scenario 5: a client message of 42 bytes is logged by its direction
    and length. *)
Lemma websocket_message_scenario :
  EgressProxyAddon.websocket_message Scenario.in_session
  = (Ok tt,
     logged Debug "[egress] WebSocket client->server: 42 bytes" Scenario.in_session).
Proof. reflexivity. Qed.



(** Nor does a port above 65535: the parser raises on it. *)
Lemma round_trip_raises_on_large_port :
  ~ recovers (EgressProxyAddon.original_url "https" "api.example.com" 70000 "/")
      "https" "api.example.com" 70000 "/".
Proof.
  intros (parsed & written & Hparse & _ & _ & Hport & _).
  vm_compute in Hparse. injection Hparse as <-.
  vm_compute in Hport. discriminate.
Qed.

(** A path with a query does not come back either: the parser keeps the
    query apart. *)
Lemma round_trip_splits_query :
  ~ recovers
      (EgressProxyAddon.original_url "https" "api.example.com" 443 "/v1/chat?n=1")
      "https" "api.example.com" 443 "/v1/chat?n=1".
Proof.
  intros (parsed & written & Hparse & _ & _ & _ & _ & Hpath).
  vm_compute in Hparse. injection Hparse as <-.
  vm_compute in Hpath. discriminate.
Qed.

(** C9. The rewrite is not idempotent: handled once, the scenario's
    request carries its own URL and host in the original-metadata headers;
    handled a second time, the two headers hold the relay's URL and host
    instead. *)
Theorem request_twice_overwrites_original :
  exists s1 s2,
    is_websocket_upgrade Scenario.plain_request = false
    /\ EgressProxyAddon.request Scenario.relay
         (Scenario.start Scenario.plain_request) = (Ok tt, s1)
    /\ Headers.get_all "X-Iterate-Original-URL" (headers (req s1))
       = ["http://openai.com/v1/completions"]
    /\ Headers.get_all "X-Iterate-Original-Host" (headers (req s1))
       = ["openai.com"]
    /\ EgressProxyAddon.request Scenario.relay s1 = (Ok tt, s2)
    /\ Headers.get_all "X-Iterate-Original-URL" (headers (req s2))
       = ["https://relay.example.com/api/egress-proxy"]
    /\ Headers.get_all "X-Iterate-Original-Host" (headers (req s2))
       = ["relay.example.com"].
Proof.
  eexists. eexists.
  split; [reflexivity|]. split; [evaluate|].
  split; [evaluate|]. split; [evaluate|].
  split; [evaluate|]. split; evaluate.
Qed.

Lemma worker_endpoint_path_is_fixed_scenario :
  exists parsed s',
    Urllib.urlparse (WORKER_ENDPOINT Scenario.relay) = Ok parsed
    /\ Urllib.path parsed <> ""
    /\ Py.endswith "/api/egress-proxy" (Urllib.path parsed) = true
    /\ EgressProxyAddon.request Scenario.relay
         (Scenario.start Scenario.plain_request) = (Ok tt, s')
    /\ path (req s') = Urllib.path parsed.
Proof.
  apply (worker_endpoint_path_is_fixed Scenario.relay
           (Scenario.start Scenario.plain_request)
           (mkRelay "https" "relay.example.com" 443 "/api/egress-proxy")).
  - discriminate.
  - repeat split.
  - reflexivity.
  - reflexivity.
Defined.

(** C10, as stated, fails: a base URL with a query swallows the fixed
    path into the query, the parsed path is empty, and the rewritten
    request gets its path from the fallback. *)
Lemma query_in_base_url_empties_path :
  BASE_URL Scenario.relay_with_query <> ""
  /\ exists parsed s',
       Urllib.urlparse (WORKER_ENDPOINT Scenario.relay_with_query) = Ok parsed
       /\ Urllib.path parsed = ""
       /\ Urllib.query parsed = "tenant=a/api/egress-proxy"
       /\ Py.endswith "/api/egress-proxy" (Urllib.path parsed) = false
       /\ EgressProxyAddon.request Scenario.relay_with_query
            (Scenario.start Scenario.plain_request) = (Ok tt, s')
       /\ path (req s') = EgressProxyAddon.path_or_default "".
Proof.
  split; [discriminate|].
  eexists. eexists. split; [evaluate|].
  split; [reflexivity|]. split; [reflexivity|]. split; [reflexivity|].
  split; evaluate.
Qed.

End Evaluated.

(* ================================================================== *)
(** * Every outcome of the request handler *)
(* ================================================================== *)

Section Outcomes.

Context `{BracketedNetloc}.
Import http.

(** The runs of the request handler, branch by branch. *)
Ltac request_cases cfg s :=
  unfold EgressProxyAddon.request, bind, read, emit, lift, set_header, update,
    some_str, ret, raise;
  destruct (String.eqb (Py.lower (Headers.get "Upgrade" "" (headers (request (flow s)))))
              "websocket") eqn:Hupgrade;
  [ | destruct (Py.truthy (WORKER_ENDPOINT cfg)) eqn:Hworker; cbn [negb];
      [ destruct (Urllib.urlparse (WORKER_ENDPOINT cfg)) as [parsed|e] eqn:Hparse;
        [ destruct (Py.truthy (API_KEY cfg)) eqn:Hkey;
          (destruct (Urllib.hostname parsed) as [hn|] eqn:Hhost;
           [ destruct (Urllib.port parsed) as [p|e] eqn:Hport;
             [ destruct (EgressProxyAddon.port_is_shown p) eqn:Hshown | ] | ])
        | ]
      | ] ].

(** X1. Whatever the outcome of the request handler, normal or
    exceptional, it has logged exactly one record (the passthrough record
    for an upgrade, the request-seen record with the original URL
    otherwise) and has left the method, the response, the WebSocket
    session and the error of the flow as they were. *)
Theorem request_frame (cfg : Config) (s : State) :
  exists outcome s',
    EgressProxyAddon.request cfg s = (outcome, s')
    /\ log s'
       = (log s ++ [if is_websocket_upgrade (req s) then passthrough_seen (req s)
                    else request_seen (req s)])%list
    /\ method (req s') = method (req s)
    /\ response (flow s') = response (flow s)
    /\ websocket (flow s') = websocket (flow s)
    /\ error (flow s') = error (flow s).
Proof.
  unfold is_websocket_upgrade, req.
  request_cases cfg s; cbn; (eexists; eexists; split; [reflexivity|]);
    repeat split.
Qed.

(** X2. Whatever the outcome of the request handler, every header whose
    name is none of X-Iterate-Original-URL, X-Iterate-Original-Host,
    X-Iterate-Original-Method, X-Iterate-API-Key and Host (in any casing)
    has the values it had, in the order it had them. *)
Theorem request_keeps_other_headers (cfg : Config) (s : State) (key : string) :
  untouched_header key = true ->
  Headers.get_all key (headers (req (snd (EgressProxyAddon.request cfg s))))
  = Headers.get_all key (headers (req s)).
Proof.
  unfold untouched_header, rewrite_header_names. cbn [forallb].
  rewrite !andb_true_iff, !negb_true_iff.
  intros (Kurl & Khost & Kmethod & Kcredential & Khostfield & _).
  unfold req.
  request_cases cfg s; cbn -[Headers.set Headers.get_all];
    rewrite ?(get_all_set_other _ _ _ _ Khostfield),
            ?(get_all_set_other _ _ _ _ Kcredential),
            ?(get_all_set_other _ _ _ _ Kmethod),
            ?(get_all_set_other _ _ _ _ Khost),
            ?(get_all_set_other _ _ _ _ Kurl);
    reflexivity.
Qed.

(** X3. When the request handler raises [ValueError] (the worker endpoint
    does not parse, or its port is not a number from 0 to 65535), the
    request still has its own port, scheme and path. *)
Theorem request_value_error_keeps_destination
    (cfg : Config) (s s' : State) :
  EgressProxyAddon.request cfg s = (Raise ValueError, s') ->
  port (req s') = port (req s)
  /\ scheme (req s') = scheme (req s)
  /\ path (req s') = path (req s).
Proof.
  unfold req.
  request_cases cfg s; cbn; intros [= <-] || intros [= ? <-] || intros [=];
    repeat split.
Qed.

(** X4. When the worker endpoint parses and has a host but its port is
    malformed, the handler raises after the stamps and the host are
    written: the request is left with the relay's host, its own port,
    scheme and path, and the three original-metadata headers. *)
Theorem request_bad_port_is_half_rewritten
    (cfg : Config) (s : State) (parsed : Urllib.ParseResult)
    (hostname : string) (e : exn) :
  is_websocket_upgrade (req s) = false ->
  Py.truthy (WORKER_ENDPOINT cfg) = true ->
  Urllib.urlparse (WORKER_ENDPOINT cfg) = Ok parsed ->
  Urllib.hostname parsed = Some hostname ->
  Urllib.port parsed = Raise e ->
  exists s',
    EgressProxyAddon.request cfg s = (Raise e, s')
    /\ host (req s') = hostname
    /\ port (req s') = port (req s)
    /\ scheme (req s') = scheme (req s)
    /\ path (req s') = path (req s)
    /\ Headers.get_all "X-Iterate-Original-URL" (headers (req s'))
       = [EgressProxyAddon.original_url (scheme (req s)) (host (req s))
            (port (req s)) (path (req s))]
    /\ Headers.get_all "X-Iterate-Original-Host" (headers (req s'))
       = [host (req s)]
    /\ Headers.get_all "X-Iterate-Original-Method" (headers (req s'))
       = [method (req s)].
Proof.
  unfold is_websocket_upgrade, req.
  intros Hstd Hw Hp Hh Hport.
  unfold EgressProxyAddon.request, bind, read, emit, lift, set_header, update,
    some_str, ret, raise.
  rewrite Hstd, Hw. cbn [negb]. rewrite Hp, Hh.
  destruct (Py.truthy (API_KEY cfg)); rewrite Hport;
    cbn -[Headers.set Headers.get_all];
    (eexists; split; [reflexivity|]); cbn -[Headers.set Headers.get_all];
    rewrite ?get_all_set_other by reflexivity;
    repeat split; rewrite ?get_all_set_other by reflexivity;
    apply get_all_set.
Qed.

End Outcomes.

(* ================================================================== *)
(** * The observers *)
(* ================================================================== *)

Section Observers.

Context `{BracketedNetloc}.
Import http.

(** X5. The response, WebSocket-start, WebSocket-message and error
    handlers and the constructor never change the flow, whatever their
    outcome, and a handler that raises has logged nothing. *)
Theorem observers_leave_flow (cfg : Config) (s : State) :
  (flow (snd (EgressProxyAddon.response s)) = flow s
   /\ flow (snd (EgressProxyAddon.websocket_start s)) = flow s
   /\ flow (snd (EgressProxyAddon.websocket_message s)) = flow s
   /\ flow (snd (EgressProxyAddon.error s)) = flow s
   /\ flow (snd (EgressProxyAddon.__init__ cfg s)) = flow s)
  /\ (forall e, fst (EgressProxyAddon.response s) = Raise e ->
                snd (EgressProxyAddon.response s) = s)
  /\ (forall e, fst (EgressProxyAddon.websocket_message s) = Raise e ->
                snd (EgressProxyAddon.websocket_message s) = s).
Proof.
  split; [repeat split|split].
  - unfold EgressProxyAddon.response, bind, read, read_flow, attr_of.
    cbn. now destruct (response (flow s)).
  - unfold EgressProxyAddon.websocket_message, bind, read_flow. cbn.
    destruct (websocket (flow s)) as [ws|]; [|reflexivity].
    now destruct (Py.last (messages ws)).
  - unfold EgressProxyAddon.__init__, bind.
    now destruct (Py.truthy (BASE_URL cfg)), (Py.truthy (API_KEY cfg)).
  - unfold EgressProxyAddon.response, bind, read, read_flow, attr_of.
    cbn. destruct (response (flow s)); cbn; [discriminate | reflexivity].
  - unfold EgressProxyAddon.websocket_message, bind, read_flow. cbn.
    destruct (websocket (flow s)) as [ws|]; [|reflexivity].
    destruct (Py.last (messages ws)); cbn; [discriminate | reflexivity].
Qed.

Lemma last_app {A : Type} (l : list A) (x : A) : Py.last (l ++ [x]) = Some x.
Proof.
  induction l as [|a l IH]; [reflexivity|].
  cbn [app Py.last]. destruct (l ++ [x])%list eqn:Hl; [|exact IH].
  now destruct l.
Qed.

Lemma last_none {A : Type} (l : list A) : Py.last l = None -> l = [].
Proof.
  induction l as [|a l IH]; [reflexivity|].
  cbn [Py.last]. destruct l as [|b l]; [discriminate|].
  intros Hl. specialize (IH Hl). discriminate.
Qed.

(** X6. The WebSocket-message handler returns exactly on the flows that
    have a session holding at least one message; without a session it
    raises [AssertionError], with an empty session [IndexError]. *)
Theorem websocket_message_outcomes (s : State) :
  (returns EgressProxyAddon.websocket_message s <-> has_message s)
  /\ (websocket (flow s) = None ->
      EgressProxyAddon.websocket_message s = (Raise AssertionError, s))
  /\ (forall ws, websocket (flow s) = Some ws -> messages ws = [] ->
      EgressProxyAddon.websocket_message s = (Raise IndexError, s)).
Proof.
  split; [split|split].
  - intros [s' Hrun]. unfold has_message.
    unfold EgressProxyAddon.websocket_message, bind, read_flow in Hrun.
    cbn in Hrun. destruct (websocket (flow s)) as [ws|]; [|discriminate].
    exists ws. split; [reflexivity|].
    intros Hnil. rewrite Hnil in Hrun. discriminate.
  - apply websocket_message_returns.
  - intros Hw. unfold EgressProxyAddon.websocket_message, bind, read_flow.
    cbn. now rewrite Hw.
  - intros ws Hw Hnil.
    unfold EgressProxyAddon.websocket_message, bind, read_flow.
    cbn. now rewrite Hw, Hnil.
Qed.

(** X7. What the WebSocket-message handler logs depends on the last
    message only, and of that message on its direction and its length
    only: the record is the same for any earlier messages and any
    payload of that length. *)
Theorem websocket_message_logs_length_only
    (s : State) (ws : WebSocketData) (earlier : list WebSocketMessage)
    (m : WebSocketMessage) :
  websocket (flow s) = Some ws ->
  messages ws = (earlier ++ [m])%list ->
  EgressProxyAddon.websocket_message s
  = (Ok tt,
     mkState (flow s)
       (log s ++ [message_seen (from_client m) (Z.of_nat (String.length (content m)))])).
Proof.
  intros Hw Hm.
  unfold EgressProxyAddon.websocket_message, bind, read_flow. cbn.
  rewrite Hw, Hm, last_app. reflexivity.
Qed.

(** The URL the engine reports for a request is the one the request
    handler builds, for the two schemes and any path but [*]. *)
Lemma url_is_original_url (r : Request) :
  scheme r = "http" \/ scheme r = "https" ->
  path r <> "*" ->
  url r = EgressProxyAddon.original_url (scheme r) (host r) (port r) (path r).
Proof.
  intros Hs Hp. unfold url, EgressProxyAddon.original_url, default_port.
  apply String.eqb_neq in Hp. rewrite Hp.
  destruct Hs as [-> | ->]; cbn [String.eqb Ascii.eqb Bool.eqb andb orb].
  - rewrite (Z.eqb_sym 80).
    destruct (port r =? 80); [reflexivity | now rewrite !append_assoc].
  - rewrite (Z.eqb_sym 443), orb_false_r.
    destruct (port r =? 443); [reflexivity | now rewrite !append_assoc].
Qed.

Lemma get_set_same (key value default : string) (fields : Headers.t) :
  Headers.get key default (Headers.set key value fields) = value.
Proof. unfold Headers.get. now rewrite get_all_set. Qed.

Lemma rewritten_headers_original_url (cfg : Config) (hv default : string)
    (r : Request) :
  Headers.get "X-Iterate-Original-URL" default (rewritten_headers cfg hv r)
  = EgressProxyAddon.original_url (scheme r) (host r) (port r) (path r).
Proof.
  unfold rewritten_headers.
  rewrite get_set_other by reflexivity.
  destruct (Py.truthy (API_KEY cfg));
    rewrite !get_set_other by reflexivity; apply get_set_same.
Qed.

(** X8. After a rewrite, the response handler recovers the original URL
    from the header the request handler stamped: request and response
    handler log the same URL, that of the original destination, although
    the request now points at the relay. *)
Theorem response_after_rewrite_logs_original_url
    (cfg : Config) (s : State) (ep : RelayEndpoint) (resp : Response) :
  is_websocket_upgrade (req s) = false ->
  relay_endpoint cfg = Ok (Some ep) ->
  response (flow s) = Some resp ->
  exists s1,
    EgressProxyAddon.request cfg s = (Ok tt, s1)
    /\ EgressProxyAddon.response s1
       = (Ok tt,
          mkState (flow s1)
            (log s
             ++ [request_seen (req s);
                 response_received (status_code resp)
                   (EgressProxyAddon.original_url (scheme (req s)) (host (req s))
                      (port (req s)) (path (req s)))])).
Proof.
  intros Hstd Hep Hresp.
  apply relay_endpoint_some in Hep
    as (Hw & parsed & hn & p & Hparse & Hhost & Hport & _).
  eexists. split.
  - apply (request_run_rewrite cfg s parsed hn p); assumption.
  - unfold EgressProxyAddon.response, bind, read, read_flow, attr_of, emit, ret.
    cbn -[rewritten_headers Headers.get].
    rewrite rewritten_headers_original_url, Hresp.
    cbn -[rewritten_headers]. unfold response_received.
    now rewrite <- app_assoc.
Qed.

(** X9. Without a relay, on a request that is not an upgrade, carries no
    X-Iterate-Original-URL header, has scheme http or https and a path
    other than [*], the response handler falls back to the request's
    current URL and logs the URL the request handler logged; the flow is
    untouched by both. *)
Theorem response_after_passthrough_logs_request_url
    (cfg : Config) (s : State) (resp : Response) :
  BASE_URL cfg = "" ->
  is_websocket_upgrade (req s) = false ->
  Headers.get_all "X-Iterate-Original-URL" (headers (req s)) = [] ->
  scheme (req s) = "http" \/ scheme (req s) = "https" ->
  path (req s) <> "*" ->
  response (flow s) = Some resp ->
  exists s1,
    EgressProxyAddon.request cfg s = (Ok tt, s1)
    /\ EgressProxyAddon.response s1
       = (Ok tt,
          mkState (flow s)
            (log s
             ++ [request_seen (req s);
                 response_received (status_code resp)
                   (EgressProxyAddon.original_url (scheme (req s)) (host (req s))
                      (port (req s)) (path (req s)))])).
Proof.
  intros Hbase Hstd Hnone Hscheme Hpath Hresp.
  eexists. split.
  - apply request_run_unconfigured; [assumption|].
    now apply worker_endpoint_unset.
  - unfold EgressProxyAddon.response, bind, read, read_flow, attr_of, emit, ret.
    cbn -[Headers.get url]. unfold Headers.get. unfold req in Hnone.
    rewrite Hnone, Hresp. cbn -[url].
    rewrite (url_is_original_url (request (flow s)) Hscheme Hpath).
    unfold response_received, req. now rewrite <- app_assoc.
Qed.

(** X10. After a rewrite, the error handler reports the URL of the
    request as it now stands, whose scheme, host, port and path are the
    relay's: the original destination is not in the error record. *)
Theorem error_after_rewrite_logs_relay_url
    (cfg : Config) (s : State) (ep : RelayEndpoint) :
  is_websocket_upgrade (req s) = false ->
  relay_endpoint cfg = Ok (Some ep) ->
  exists s1,
    EgressProxyAddon.request cfg s = (Ok tt, s1)
    /\ scheme (req s1) = relay_scheme ep
    /\ host (req s1) = relay_hostname ep
    /\ port (req s1) = relay_port ep
    /\ path (req s1) = relay_path ep
    /\ EgressProxyAddon.error s1
       = (Ok tt,
          mkState (flow s1)
            (log s ++ [request_seen (req s);
                       error_seen (url (req s1)) (error (flow s))])).
Proof.
  intros Hstd Hep.
  apply relay_endpoint_some in Hep
    as (Hw & parsed & hn & p & Hparse & Hhost & Hport & ->).
  eexists. split.
  - apply (request_run_rewrite cfg s parsed hn p); assumption.
  - repeat split.
    unfold EgressProxyAddon.error, bind, read, read_flow, emit.
    cbn -[url]. unfold error_seen, req. cbn -[url].
    now rewrite <- app_assoc.
Qed.

End Observers.

(* ================================================================== *)
(** * The worker endpoint and the rewritten destination *)
(* ================================================================== *)

Section Destination.

Context `{BracketedNetloc}.
Import http.
Local Arguments Ascii.eqb : simpl never.

Lemma rstrip_slashes (s : string) :
  exists n, s = Py.rstrip "/" s ++ slashes n.
Proof.
  induction s as [|x s [n IH]]; [now exists O|].
  cbn [Py.rstrip]. destruct (Py.rstrip "/" s) as [|y t] eqn:Hr.
  - cbn [append] in IH. destruct (Ascii.eqb_spec x "/") as [->|Hx].
    + exists (S n). cbn [slashes append]. now rewrite <- IH.
    + exists n. cbn [append]. now rewrite <- IH.
  - exists n. cbn [append] in *. now rewrite <- IH.
Qed.

Lemma rstrip_of_slashes (n : nat) : Py.rstrip "/" (slashes n) = "".
Proof.
  induction n as [|n IH]; [reflexivity|].
  cbn [slashes Py.rstrip]. rewrite IH. now rewrite Ascii.eqb_refl.
Qed.

Lemma rstrip_app_slashes (b : string) (n : nat) :
  Py.rstrip "/" (b ++ slashes n) = Py.rstrip "/" b.
Proof.
  induction b as [|x b IH]; [apply rstrip_of_slashes|].
  cbn [append Py.rstrip]. now rewrite IH.
Qed.

(** X11. A non-empty base URL is a stem that does not end in a slash,
    followed by its trailing slashes; the worker endpoint is that stem
    followed by [/api/egress-proxy], so the fixed path is never preceded
    by a second slash. *)
Theorem worker_endpoint_normal_form (cfg : Config) :
  BASE_URL cfg <> "" ->
  exists stem n,
    BASE_URL cfg = stem ++ slashes n
    /\ Py.endswith "/" stem = false
    /\ WORKER_ENDPOINT cfg = stem ++ "/api/egress-proxy".
Proof.
  intros Hset. destruct (rstrip_slashes (BASE_URL cfg)) as [n Hn].
  exists (Py.rstrip "/" (BASE_URL cfg)), n.
  split; [exact Hn|]. split; [apply rstrip_no_trailing|].
  unfold WORKER_ENDPOINT. apply truthy_true in Hset. now rewrite Hset.
Qed.

(** X12. Trailing slashes of a non-empty base URL do not matter: with any
    number of them added, the worker endpoint is the same. *)
Theorem worker_endpoint_ignores_trailing_slashes
    (base key key' : string) (n : nat) :
  base <> "" ->
  WORKER_ENDPOINT (mkConfig (base ++ slashes n) key)
  = WORKER_ENDPOINT (mkConfig base key').
Proof.
  intros Hset. unfold WORKER_ENDPOINT. cbn [BASE_URL].
  rewrite rstrip_app_slashes.
  destruct base as [|c base]; [congruence | reflexivity].
Qed.






(** X14. After a rewrite the request has exactly one [Host] field, whatever
    it had before.  Its value is the relay's host alone when the worker
    URL writes no port or writes 0, 80 or 443, and [host:port] when it
    writes any other port. *)
Theorem host_header_after_rewrite
    (cfg : Config) (s : State) (parsed : Urllib.ParseResult)
    (hostname : string) (p : option Z) :
  is_websocket_upgrade (req s) = false ->
  Py.truthy (WORKER_ENDPOINT cfg) = true ->
  Urllib.urlparse (WORKER_ENDPOINT cfg) = Ok parsed ->
  Urllib.hostname parsed = Some hostname ->
  Urllib.port parsed = Ok p ->
  exists s',
    EgressProxyAddon.request cfg s = (Ok tt, s')
    /\ (p = None \/ p = Some 0 \/ p = Some 80 \/ p = Some 443 ->
        Headers.get_all "Host" (headers (req s')) = [hostname])
    /\ (forall n, p = Some n -> n <> 0 -> n <> 80 -> n <> 443 ->
        Headers.get_all "Host" (headers (req s'))
        = [hostname ++ ":" ++ Py.str_of_int n]).
Proof.
  intros Hstd Hw Hparse Hhost Hport. eexists. split.
  - apply (request_run_rewrite cfg s parsed hostname p); assumption.
  - unfold req. cbn [flow request headers]. unfold rewritten_headers.
    rewrite get_all_set. unfold host_value, EgressProxyAddon.port_is_shown.
    split.
    + intros [-> | [-> | [-> | ->]]]; reflexivity.
    + intros n -> H0 H80 H443.
      destruct (Z.eqb_spec n 0), (Z.eqb_spec n 80), (Z.eqb_spec n 443);
        try contradiction. reflexivity.
Qed.

(** X15. Handling a rewritten request a second time leaves its
    destination, its [Host] field and its credential header as the first
    run set them, and the X-Iterate-Original-Method header still holds
    the method of the request as it came in. *)
Theorem request_twice_keeps_destination
    (cfg : Config) (s : State) (ep : RelayEndpoint) :
  is_websocket_upgrade (req s) = false ->
  relay_endpoint cfg = Ok (Some ep) ->
  exists s1 s2,
    EgressProxyAddon.request cfg s = (Ok tt, s1)
    /\ EgressProxyAddon.request cfg s1 = (Ok tt, s2)
    /\ host (req s2) = host (req s1)
    /\ port (req s2) = port (req s1)
    /\ scheme (req s2) = scheme (req s1)
    /\ path (req s2) = path (req s1)
    /\ Headers.get_all "Host" (headers (req s2))
       = Headers.get_all "Host" (headers (req s1))
    /\ Headers.get_all "X-Iterate-API-Key" (headers (req s2))
       = Headers.get_all "X-Iterate-API-Key" (headers (req s1))
    /\ Headers.get_all "X-Iterate-Original-Method" (headers (req s2))
       = [method (req s)].
Proof.
  intros Hstd Hep.
  apply relay_endpoint_some in Hep
    as (Hw & parsed & hn & p & Hparse & Hhost & Hport & _).
  pose proof (request_run_rewrite cfg s parsed hn p Hstd Hw Hparse Hhost Hport)
    as Hrun1.
  eexists. eexists. split; [exact Hrun1|].
  split.
  - apply (request_run_rewrite cfg _ parsed hn p); try assumption.
    unfold is_websocket_upgrade, req. cbn [flow request headers].
    rewrite rewritten_headers_upgrade. exact Hstd.
  - unfold req. cbn [flow request host port scheme path headers method].
    repeat split.
    + unfold rewritten_headers. now rewrite !get_all_set.
    + unfold rewritten_headers.
      rewrite !(get_all_set_other "Host") by reflexivity.
      destruct (Py.truthy (API_KEY cfg)).
      * now rewrite !get_all_set.
      * cbn [headers]. now rewrite !get_all_set_other by reflexivity.
    + unfold rewritten_headers.
      rewrite (get_all_set_other "Host") by reflexivity.
      destruct (Py.truthy (API_KEY cfg));
        rewrite ?get_all_set_other by reflexivity; apply get_all_set.
Qed.

Lemma contains_lower_comma (s : string) :
  Py.contains "," s = true -> Py.contains "," (Py.lower s) = true.
Proof.
  induction s as [|x s IH]; [discriminate|].
  cbn [Py.contains Py.lower Py.map].
  destruct (Ascii.eqb_spec x ",") as [->|Hx].
  - reflexivity.
  - cbn [orb]. intros Hs. fold (Py.lower s). rewrite (IH Hs).
    apply orb_true_r.
Qed.

(** X16. A request with more than one [Upgrade] field is never classified
    as a WebSocket upgrade, whatever the fields hold: the handler compares
    the values joined by a comma, and that is not [websocket]. *)
Theorem several_upgrade_fields_are_standard
    (r : Request) (v1 v2 : string) (more : list string) :
  Headers.get_all "Upgrade" (headers r) = v1 :: v2 :: more ->
  is_websocket_upgrade r = false.
Proof.
  intros Hvalues. unfold is_websocket_upgrade, Headers.get.
  rewrite Hvalues. apply String.eqb_neq. intros Heq.
  assert (Hcomma : Py.contains ","
                     (Py.lower (Py.join ", " (v1 :: v2 :: more))) = true).
  { apply contains_lower_comma. unfold Py.join.
    change (String.concat ", " (v1 :: v2 :: more))
      with (v1 ++ ", " ++ String.concat ", " (v2 :: more)).
    rewrite contains_app. apply orb_true_iff. right. reflexivity. }
  rewrite Heq in Hcomma. discriminate.
Qed.

End Destination.

(* ================================================================== *)
(** * The further scenarios, evaluated *)
(* ================================================================== *)

Section EvaluatedFurther.

Local Existing Instance no_bracketed_host.
Import http.

Lemma request_keeps_other_headers_scenario :
  Headers.get_all "content-type"
    (headers (req (snd (EgressProxyAddon.request Scenario.relay
                          (Scenario.start Scenario.plain_request)))))
  = ["application/json"].
Proof.
  exact (request_keeps_other_headers Scenario.relay
           (Scenario.start Scenario.plain_request) "content-type" eq_refl).
Defined.

Lemma request_value_error_keeps_destination_scenario :
  port (req (snd (EgressProxyAddon.request Scenario.relay_bad_port
                    (Scenario.start Scenario.plain_request)))) = 80
  /\ scheme (req (snd (EgressProxyAddon.request Scenario.relay_bad_port
                        (Scenario.start Scenario.plain_request)))) = "http"
  /\ path (req (snd (EgressProxyAddon.request Scenario.relay_bad_port
                      (Scenario.start Scenario.plain_request))))
     = "/v1/completions".
Proof.
  apply (request_value_error_keeps_destination Scenario.relay_bad_port
           (Scenario.start Scenario.plain_request)).
  vm_compute. reflexivity.
Defined.

Lemma request_bad_port_is_half_rewritten_scenario :
  exists s',
    EgressProxyAddon.request Scenario.relay_bad_port
      (Scenario.start Scenario.plain_request) = (Raise ValueError, s')
    /\ host (req s') = "relay.example.com"
    /\ port (req s') = 80
    /\ scheme (req s') = "http"
    /\ path (req s') = "/v1/completions"
    /\ Headers.get_all "X-Iterate-Original-URL" (headers (req s'))
       = ["http://openai.com/v1/completions"]
    /\ Headers.get_all "X-Iterate-Original-Host" (headers (req s'))
       = ["openai.com"]
    /\ Headers.get_all "X-Iterate-Original-Method" (headers (req s'))
       = ["POST"].
Proof.
  exact (request_bad_port_is_half_rewritten Scenario.relay_bad_port
           (Scenario.start Scenario.plain_request)
           MoreScenarios.parsed_relay_bad_port "relay.example.com" ValueError
           eq_refl eq_refl eq_refl eq_refl eq_refl).
Defined.

Lemma observers_leave_flow_scenario :
  snd (EgressProxyAddon.response (Scenario.start Scenario.plain_request))
  = Scenario.start Scenario.plain_request
  /\ snd (EgressProxyAddon.websocket_message (Scenario.start Scenario.plain_request))
     = Scenario.start Scenario.plain_request.
Proof.
  destruct (observers_leave_flow Scenario.relay
              (Scenario.start Scenario.plain_request)) as (_ & Hresp & Hmsg).
  split.
  - apply (Hresp AttributeError). reflexivity.
  - apply (Hmsg AssertionError). reflexivity.
Defined.

Lemma websocket_message_outcomes_scenario :
  returns EgressProxyAddon.websocket_message Scenario.in_session
  /\ EgressProxyAddon.websocket_message (Scenario.start Scenario.upgrade_request)
     = (Raise AssertionError, Scenario.start Scenario.upgrade_request).
Proof.
  split.
  - apply (proj1 (websocket_message_outcomes Scenario.in_session)).
    eexists. split; [reflexivity | discriminate].
  - apply (proj1 (proj2 (websocket_message_outcomes
                           (Scenario.start Scenario.upgrade_request)))).
    reflexivity.
Defined.

Lemma websocket_message_logs_length_only_scenario :
  EgressProxyAddon.websocket_message Scenario.in_session
  = (Ok tt,
     mkState (flow Scenario.in_session)
       [(Debug, "[egress] WebSocket client->server: 42 bytes")]).
Proof.
  exact (websocket_message_logs_length_only Scenario.in_session
           (mkWebSocket
              [mkMessage true "0123456789012345678901234567890123456789ab"])
           [] (mkMessage true "0123456789012345678901234567890123456789ab")
           eq_refl eq_refl).
Defined.

Lemma response_after_rewrite_logs_original_url_scenario :
  exists s1,
    EgressProxyAddon.request Scenario.relay Scenario.answered = (Ok tt, s1)
    /\ EgressProxyAddon.response s1
       = (Ok tt,
          mkState (flow s1)
            [(Info, "[egress] POST http://openai.com/v1/completions");
             (Info, "[egress] Response 200 for http://openai.com/v1/completions")]).
Proof.
  exact (response_after_rewrite_logs_original_url Scenario.relay
           Scenario.answered
           (mkRelay "https" "relay.example.com" 443 "/api/egress-proxy")
           (mkResponse 200) eq_refl eq_refl eq_refl).
Defined.

Lemma response_after_passthrough_logs_request_url_scenario :
  exists s1,
    EgressProxyAddon.request Scenario.unconfigured Scenario.answered = (Ok tt, s1)
    /\ EgressProxyAddon.response s1
       = (Ok tt,
          mkState (flow Scenario.answered)
            [(Info, "[egress] POST http://openai.com/v1/completions");
             (Info, "[egress] Response 200 for http://openai.com/v1/completions")]).
Proof.
  apply (response_after_passthrough_logs_request_url Scenario.unconfigured
           Scenario.answered (mkResponse 200)).
  - reflexivity.
  - reflexivity.
  - reflexivity.
  - now left.
  - discriminate.
  - reflexivity.
Defined.

Lemma error_after_rewrite_logs_relay_url_scenario :
  exists s1,
    EgressProxyAddon.request Scenario.relay MoreScenarios.failed = (Ok tt, s1)
    /\ scheme (req s1) = "https"
    /\ host (req s1) = "relay.example.com"
    /\ port (req s1) = 443
    /\ path (req s1) = "/api/egress-proxy"
    /\ EgressProxyAddon.error s1
       = (Ok tt,
          mkState (flow s1)
            [(Info, "[egress] POST http://openai.com/v1/completions");
             (Error, "[egress] Error for https://relay.example.com/api/egress-proxy: connection refused")]).
Proof.
  destruct (error_after_rewrite_logs_relay_url Scenario.relay
              MoreScenarios.failed
              (mkRelay "https" "relay.example.com" 443 "/api/egress-proxy")
              eq_refl eq_refl)
    as (s1 & Hrun & Hscheme & Hhost & Hport & Hpath & Herr).
  exists s1. repeat (split; [assumption|]).
  rewrite Herr. f_equal. f_equal.
  injection Hrun as <-. vm_compute. reflexivity.
Defined.

Lemma worker_endpoint_normal_form_scenario :
  exists stem n,
    "https://relay.example.com//" = stem ++ slashes n
    /\ Py.endswith "/" stem = false
    /\ WORKER_ENDPOINT MoreScenarios.relay_with_slashes
       = stem ++ "/api/egress-proxy".
Proof.
  apply (worker_endpoint_normal_form MoreScenarios.relay_with_slashes).
  discriminate.
Defined.

Lemma worker_endpoint_ignores_trailing_slashes_scenario :
  WORKER_ENDPOINT MoreScenarios.relay_with_slashes
  = WORKER_ENDPOINT Scenario.relay.
Proof.
  apply (worker_endpoint_ignores_trailing_slashes
           "https://relay.example.com" "secret" "secret" 2).
  discriminate.
Defined.


Lemma host_header_after_rewrite_scenario :
  exists s',
    EgressProxyAddon.request MoreScenarios.relay_on_8443
      (Scenario.start Scenario.plain_request) = (Ok tt, s')
    /\ Headers.get_all "Host" (headers (req s')) = ["relay.example.com:8443"].
Proof.
  destruct (host_header_after_rewrite MoreScenarios.relay_on_8443
              (Scenario.start Scenario.plain_request)
              MoreScenarios.parsed_relay_on_8443 "relay.example.com" (Some 8443)
              eq_refl eq_refl eq_refl eq_refl eq_refl)
    as (s' & Hrun & _ & Hshown).
  exists s'. split; [exact Hrun|].
  apply (Hshown 8443 eq_refl); discriminate.
Defined.

Lemma request_twice_keeps_destination_scenario :
  exists s1 s2,
    EgressProxyAddon.request Scenario.relay (Scenario.start Scenario.plain_request)
    = (Ok tt, s1)
    /\ EgressProxyAddon.request Scenario.relay s1 = (Ok tt, s2)
    /\ host (req s2) = host (req s1)
    /\ port (req s2) = port (req s1)
    /\ scheme (req s2) = scheme (req s1)
    /\ path (req s2) = path (req s1)
    /\ Headers.get_all "Host" (headers (req s2))
       = Headers.get_all "Host" (headers (req s1))
    /\ Headers.get_all "X-Iterate-API-Key" (headers (req s2))
       = Headers.get_all "X-Iterate-API-Key" (headers (req s1))
    /\ Headers.get_all "X-Iterate-Original-Method" (headers (req s2)) = ["POST"].
Proof.
  exact (request_twice_keeps_destination Scenario.relay
           (Scenario.start Scenario.plain_request)
           (mkRelay "https" "relay.example.com" 443 "/api/egress-proxy")
           eq_refl eq_refl).
Defined.

Lemma several_upgrade_fields_are_standard_scenario :
  is_websocket_upgrade MoreScenarios.doubled_upgrade = false.
Proof.
  exact (several_upgrade_fields_are_standard MoreScenarios.doubled_upgrade
           "websocket" "websocket" [] eq_refl).
Defined.

End EvaluatedFurther.
